(** * Pet Health firmware: mode controller and sleep-activity accumulator

    A shallow embedding of the Arduino sketch of the pet-health gadget and
    the properties of its three-mode controller.

    Two variants of the sketch are embedded:
    - [Module Console]: the console-only variant (MPU 6050 sampling, log
      lines written to the serial port, [resetDevice] a dummy);
    - [Module SDCard]: the SD-backed variant of [pet-health.ino] (log lines
      appended to LOG.TXT, [sendData] dumps the file, [resetDevice] removes
      it).

    The sketch targets the ATmega328 boards (SPI on pins 11-13, I2C on
    A4/A5): [int] is 16 bits wide and [long] 32 bits.  Integers are [Z]
    with the wrap-around written at every assignment. *)

From Stdlib Require Import ZArith List String Bool Lia DecimalString.
Import ListNotations.
Open Scope string_scope.
Open Scope list_scope.
Open Scope Z_scope.

(** ** Machine integers *)

(** Two's complement value of [z] on [bits] bits. *)
Definition wrap (bits : Z) (z : Z) : Z :=
  (z + 2 ^ (bits - 1)) mod 2 ^ bits - 2 ^ (bits - 1).

(** [int] and [int16_t]. *)
Definition int16 (z : Z) : Z := wrap 16 z.
(** [long]. *)
Definition int32 (z : Z) : Z := wrap 32 z.

Definition INT_MAX : Z := 32767.
Definition INT_MIN : Z := -32768.

Definition is_int16 (z : Z) : Prop := INT_MIN <= z <= INT_MAX.

(** Decimal rendering used by [String += int] and [String += long]. *)
Definition string_of_Z (z : Z) : string :=
  NilZero.string_of_int (Z.to_int z).

(** ** Constants of the sketch *)

Definition LOW : Z := 0.
Definition HIGH : Z := 1.

Definition PIN_BUTTON_SYNC : Z := 7.
Definition PIN_BUTTON_SLEEP : Z := 8.
Definition PIN_LED_SYNC : Z := 5.
Definition PIN_LED_SLEEP : Z := 6.
Definition PIN_LED_ACTIVE : Z := 3.

Definition MODE_NONE : Z := 0.
Definition MODE_SYNC : Z := 1.
Definition MODE_SLEEP : Z := 2.

Definition MPU_ADDRESS : Z := 104.   (* 0x68 *)
Definition REST : Z := 500.
Definition LOG_FILE : string := "LOG.TXT".

(** ['D'] and ['R']. *)
Definition CHAR_D : Z := 68.
Definition CHAR_R : Z := 82.

(** ** Program state *)

(** The file-scope variables of the sketch, and the receive buffers of the
    two-wire bus and of the serial port. *)
Record state : Type := mkState {
  mode : Z;
  prevSyncState : Z;
  prevSleepState : Z;
  AcStep : Z;
  AcCount : Z;
  AcTotal : Z;
  wireBuf : list Z;
  serialBuf : list Z
}.

(** The variables a statement of the sketch assigns.  No statement assigns
    [prevSyncState] or [prevSleepState]. *)
Inductive var : Type := Vmode | VAcStep | VAcCount | VAcTotal.

Definition assign (x : var) (v : Z) (s : state) : state :=
  match x with
  | Vmode =>
      mkState v (prevSyncState s) (prevSleepState s) (AcStep s) (AcCount s)
        (AcTotal s) (wireBuf s) (serialBuf s)
  | VAcStep =>
      mkState (mode s) (prevSyncState s) (prevSleepState s) v (AcCount s)
        (AcTotal s) (wireBuf s) (serialBuf s)
  | VAcCount =>
      mkState (mode s) (prevSyncState s) (prevSleepState s) (AcStep s) v
        (AcTotal s) (wireBuf s) (serialBuf s)
  | VAcTotal =>
      mkState (mode s) (prevSyncState s) (prevSleepState s) (AcStep s)
        (AcCount s) v (wireBuf s) (serialBuf s)
  end.

Definition with_wireBuf (b : list Z) (s : state) : state :=
  mkState (mode s) (prevSyncState s) (prevSleepState s) (AcStep s) (AcCount s)
    (AcTotal s) b (serialBuf s).

Definition with_serialBuf (b : list Z) (s : state) : state :=
  mkState (mode s) (prevSyncState s) (prevSleepState s) (AcStep s) (AcCount s)
    (AcTotal s) (wireBuf s) b.

(** The controller's fields: mode, button levels, accumulator. *)
Definition fields (s : state) : Z * Z * Z * (Z * Z * Z) :=
  (mode s, prevSyncState s, prevSleepState s, (AcStep s, AcCount s, AcTotal s)).

(** The values of the initialisers. *)
Definition initial : state :=
  mkState MODE_NONE LOW LOW 0 0 0 [] [].

(** ** Environment and events *)

(** What the peripherals answer during one iteration of [loop]: the button
    levels, the bytes the MPU sends on a [requestFrom], the bytes that
    arrived on the serial port since the previous iteration, and the answers
    of the SD library. *)
Record env : Type := mkEnv {
  pinSync : Z;
  pinSleep : Z;
  wireResponse : list Z;
  serialArrived : list Z;
  sdOpenWrite : bool;
  sdOpenRead : option (list Z);
  sdRemove : bool
}.

(** Every statement with an effect leaves one event, in program order. *)
Inductive event : Type :=
| Store (x : var) (v : Z)
| DigitalRead (pin v : Z)
| DigitalWrite (pin v : Z)
| AnalogWrite (pin v : Z)
| Println (line : string)
| SerialWrite (b : Z)
| SerialRead (c : Z)
| Delay (ms : Z)
| WireBeginTransmission (addr : Z)
| WireWrite (b : Z)
| WireEndTransmission (stop : bool)
| WireRequestFrom (addr n : Z) (stop : bool)
| WireRead (b : Z)
| SdOpen (name : string) (forWrite ok : bool)
| FilePrintln (line : string)
| FileRead (b : Z)
| FileClose
| SdRemove (name : string) (ok : bool).

Definition trace : Type := list event.

(** Lines printed on the console. *)
Fixpoint console (t : trace) : list string :=
  match t with
  | [] => []
  | Println l :: t' => l :: console t'
  | _ :: t' => console t'
  end.

(** Assignments to the sketch's variables. *)
Fixpoint stores (t : trace) : list (var * Z) :=
  match t with
  | [] => []
  | Store x v :: t' => (x, v) :: stores t'
  | _ :: t' => stores t'
  end.

(** Values written to the activity LED. *)
Fixpoint activity_levels (t : trace) : list Z :=
  match t with
  | [] => []
  | AnalogWrite pin v :: t' =>
      if pin =? PIN_LED_ACTIVE then v :: activity_levels t'
      else activity_levels t'
  | _ :: t' => activity_levels t'
  end.

(** ** The monad of the sketch: environment, state and trace *)

Definition prog (A : Type) : Type := env -> state -> A * state * trace.

Definition ret {A : Type} (a : A) : prog A := fun _ s => (a, s, []).

Definition bind {A B : Type} (c : prog A) (k : A -> prog B) : prog B :=
  fun e s =>
    let '(a, s1, t1) := c e s in
    let '(b, s2, t2) := k a e s1 in
    (b, s2, t1 ++ t2).

Declare Scope prog_scope.
Delimit Scope prog_scope with prog.
Notation "x <- c ;; k" := (bind c (fun x => k))
  (at level 61, c at next level, right associativity) : prog_scope.
Notation "c ;; k" := (bind c (fun _ => k))
  (at level 61, right associativity) : prog_scope.
Open Scope prog_scope.

Definition get {A : Type} (f : state -> A) : prog A := fun _ s => (f s, s, []).
Definition emit (ev : event) : prog unit := fun _ s => (tt, s, [ev]).
Definition store (x : var) (v : Z) : prog unit :=
  fun _ s => (tt, assign x v s, [Store x v]).

Definition exec {A : Type} (c : prog A) (e : env) (s : state) : state * trace :=
  let '(_, s', t) := c e s in (s', t).

(** *** Primitives of the Arduino core *)

Definition digitalRead (pin : Z) : prog Z :=
  fun e s =>
    let v := if pin =? PIN_BUTTON_SYNC then pinSync e
             else if pin =? PIN_BUTTON_SLEEP then pinSleep e
             else LOW in
    (v, s, [DigitalRead pin v]).

Definition digitalWrite (pin v : Z) : prog unit := emit (DigitalWrite pin v).
Definition analogWrite (pin v : Z) : prog unit := emit (AnalogWrite pin v).
Definition delay (ms : Z) : prog unit := emit (Delay ms).
Definition Serial_println (l : string) : prog unit := emit (Println l).

(** [Serial.available()]: the number of bytes waiting. *)
Definition Serial_available : prog Z :=
  get (fun s => Z.of_nat (List.length (serialBuf s))).

(** [Serial.read()]: the first waiting byte, or -1. *)
Definition Serial_read : prog Z :=
  fun _ s =>
    match serialBuf s with
    | [] => (-1, s, [SerialRead (-1)])
    | c :: rest => (c, with_serialBuf rest s, [SerialRead c])
    end.

Definition Wire_beginTransmission (a : Z) : prog unit :=
  emit (WireBeginTransmission a).
Definition Wire_write (b : Z) : prog unit := emit (WireWrite b).
Definition Wire_endTransmission (stop : bool) : prog unit :=
  emit (WireEndTransmission stop).

(** [Wire.requestFrom]: the receive buffer now holds what the device sent,
    at most [n] bytes. *)
Definition Wire_requestFrom (a n : Z) (stop : bool) : prog unit :=
  fun e s =>
    (tt, with_wireBuf (firstn (Z.to_nat n) (wireResponse e)) s,
     [WireRequestFrom a n stop]).

(** [Wire.read()]: the next received byte, or -1. *)
Definition Wire_read : prog Z :=
  fun _ s =>
    match wireBuf s with
    | [] => (-1, s, [WireRead (-1)])
    | b :: rest => (b, with_wireBuf rest s, [WireRead b])
    end.

(** ** The console-only variant of the sketch *)

Module Console.

(** [logData], USE_SD = false. *)
Definition logData (message : string) : prog unit :=
  let line := "<log message='" in
  let line := (line ++ (message ++ "'/>"))%string in
  Serial_println line.

Definition processSyncButton : prog unit :=
  m <- get mode ;;
  if (m =? MODE_NONE) || (m =? MODE_SYNC) then
    syncState <- digitalRead PIN_BUTTON_SYNC ;;
    prev <- get prevSyncState ;;
    if (prev =? LOW) && (syncState =? HIGH) then
      (m <- get mode ;;
       if m =? MODE_NONE then
         store Vmode MODE_SYNC ;;
         digitalWrite PIN_LED_SYNC HIGH ;;
         logData "LOG: Sync button was pressed, sync mode enabled"
       else if m =? MODE_SYNC then
         store Vmode MODE_NONE ;;
         digitalWrite PIN_LED_SYNC LOW ;;
         logData "LOG: Sync button was pressed, sync mode disabled"
       else ret tt) ;;
      delay REST
    else ret tt
  else ret tt.

Definition summariseSleepData : prog string :=
  let sleepData := "SLEEP: duration=" in
  n <- get AcCount ;;
  let sleepData := (sleepData ++ string_of_Z n)%string in
  let sleepData := (sleepData ++ ", activity=")%string in
  t <- get AcTotal ;;
  let sleepData := (sleepData ++ string_of_Z t)%string in
  ret sleepData.

Definition processSleepButton : prog unit :=
  m <- get mode ;;
  if (m =? MODE_NONE) || (m =? MODE_SLEEP) then
    sleepState <- digitalRead PIN_BUTTON_SLEEP ;;
    prev <- get prevSleepState ;;
    if (prev =? LOW) && (sleepState =? HIGH) then
      (m <- get mode ;;
       if m =? MODE_NONE then
         store Vmode MODE_SLEEP ;;
         store VAcStep 0 ;;
         store VAcCount 0 ;;
         store VAcTotal 0 ;;
         digitalWrite PIN_LED_SLEEP HIGH ;;
         logData "LOG: Sleep button was pressed, sleep mode enabled"
       else if m =? MODE_SLEEP then
         store Vmode MODE_NONE ;;
         digitalWrite PIN_LED_SLEEP LOW ;;
         analogWrite PIN_LED_ACTIVE 0 ;;
         logData "LOG: Sleep button was pressed, sleep mode disabled" ;;
         summary <- summariseSleepData ;;
         logData summary
       else ret tt) ;;
      delay REST
    else ret tt
  else ret tt.

(** [Wire.read()<<8|Wire.read()] converted to [int16_t]; the high register
    is read first. *)
Definition read_word : prog Z :=
  hi <- Wire_read ;;
  lo <- Wire_read ;;
  ret (int16 (Z.lor (Z.shiftl hi 8) lo)).

(** The [Normalise data] lines on the locals [AcX] and [AcY]: the value of
    [(AcX+AcY)/2] after them. *)
Definition normalise (AcX AcY : Z) : Z :=
  let AcX := int16 (Z.quot AcX 100) in
  let AcY := int16 (Z.quot AcY 100) in
  let AcX := if AcX <? 0 then int16 (AcX * -1) else AcX in
  let AcY := if AcY <? 0 then int16 (AcY * -1) else AcY in
  Z.quot (AcX + AcY) 2.

Definition processSleepData : prog unit :=
  Wire_beginTransmission MPU_ADDRESS ;;
  Wire_write 59 ;;                         (* 0x3B *)
  Wire_endTransmission false ;;
  Wire_requestFrom MPU_ADDRESS 14 true ;;
  AcX <- read_word ;;
  AcY <- read_word ;;
  AcZ <- read_word ;;
  Tmp <- read_word ;;
  GyX <- read_word ;;
  GyY <- read_word ;;
  GyZ <- read_word ;;
  n <- get AcCount ;;
  store VAcCount (int16 (n + 1)) ;;
  store VAcStep (int16 (normalise AcX AcY)) ;;
  t <- get AcTotal ;;
  step <- get AcStep ;;
  store VAcTotal (int32 (t + step)) ;;
  step <- get AcStep ;;
  analogWrite PIN_LED_ACTIVE step ;;
  delay REST.

Definition sendData : prog unit :=
  Serial_println "<log message='Sending sleep data'/>" ;;
  Serial_println "<cmd name='data'>" ;;
  summary <- summariseSleepData ;;
  Serial_println summary ;;
  Serial_println "</cmd>".

(** [resetDevice], the dummy. *)
Definition resetDevice : prog unit := ret tt.

Definition idle : prog unit :=
  processSyncButton ;;
  processSleepButton.

Definition sync : prog unit :=
  processSyncButton ;;
  n <- Serial_available ;;
  if 0 <? n then
    character <- Serial_read ;;
    if character =? CHAR_D then
      Serial_println "<log message='Received: Read data'>" ;;
      sendData
    else if character =? CHAR_R then
      Serial_println "<log message='Received: Reset device'>" ;;
      resetDevice
    else ret tt
  else ret tt.

Definition sleep : prog unit :=
  processSleepButton ;;
  processSleepData.

Definition loop : prog unit :=
  m <- get mode ;;
  if m =? MODE_NONE then idle
  else if m =? MODE_SYNC then sync
  else if m =? MODE_SLEEP then sleep
  else ret tt.

(** The serial port queues what arrived behind the bytes not yet read. *)
Definition receive : prog unit :=
  fun e s => (tt, with_serialBuf (serialBuf s ++ serialArrived e) s, []).

(** One iteration of the main loop. *)
Definition iteration (e : env) (s : state) : state * trace :=
  exec (receive ;; loop) e s.

(** The main loop over the answers of the environment, one per iteration. *)
Fixpoint run (es : list env) (s : state) : state * trace :=
  match es with
  | [] => (s, [])
  | e :: es' =>
      let '(s1, t1) := iteration e s in
      let '(s2, t2) := run es' s1 in
      (s2, t1 ++ t2)
  end.

End Console.

(** ** The SD-backed variant of the sketch ([pet-health.ino]) *)

Module SDCard.

(** [SD.open(name, FILE_WRITE)]: whether the file could be opened. *)
Definition SD_open_write (name : string) : prog bool :=
  fun e s => (sdOpenWrite e, s, [SdOpen name true (sdOpenWrite e)]).

(** [SD.open(name, FILE_READ)]: the bytes of the file when it opens. *)
Definition SD_open_read (name : string) : prog (option (list Z)) :=
  fun e s =>
    (sdOpenRead e, s,
     [SdOpen name false
        match sdOpenRead e with Some _ => true | None => false end]).

(** [SD.remove(name)]. *)
Definition SD_remove (name : string) : prog bool :=
  fun e s => (sdRemove e, s, [SdRemove name (sdRemove e)]).

Definition logData (message : string) : prog unit :=
  dataFile <- SD_open_write LOG_FILE ;;
  if dataFile : bool then
    emit (FilePrintln message) ;;
    Serial_println "<log message='Writing message to SD card'/>" ;;
    emit FileClose
  else
    Serial_println "<log message='Error opening LOG.TXT...'/>".

Definition processSyncButton : prog unit :=
  m <- get mode ;;
  if (m =? MODE_NONE) || (m =? MODE_SYNC) then
    syncState <- digitalRead PIN_BUTTON_SYNC ;;
    prev <- get prevSyncState ;;
    if (prev =? LOW) && (syncState =? HIGH) then
      (m <- get mode ;;
       if m =? MODE_NONE then
         store Vmode MODE_SYNC ;;
         digitalWrite PIN_LED_SYNC HIGH ;;
         logData "LOG: Sync button was pressed, sync mode enabled"
       else if m =? MODE_SYNC then
         store Vmode MODE_NONE ;;
         digitalWrite PIN_LED_SYNC LOW ;;
         logData "LOG: Sync button was pressed, sync mode disabled"
       else ret tt) ;;
      delay REST
    else ret tt
  else ret tt.

Definition processSleepButton : prog unit :=
  m <- get mode ;;
  if (m =? MODE_NONE) || (m =? MODE_SLEEP) then
    sleepState <- digitalRead PIN_BUTTON_SLEEP ;;
    prev <- get prevSleepState ;;
    if (prev =? LOW) && (sleepState =? HIGH) then
      (m <- get mode ;;
       if m =? MODE_NONE then
         store Vmode MODE_SLEEP ;;
         digitalWrite PIN_LED_SLEEP HIGH ;;
         logData "LOG: Sleep button was pressed, sleep mode enabled"
       else if m =? MODE_SLEEP then
         store Vmode MODE_NONE ;;
         digitalWrite PIN_LED_SLEEP LOW ;;
         logData "LOG: Sleep button was pressed, sleep mode disabled"
       else ret tt) ;;
      delay REST
    else ret tt
  else ret tt.

Definition processSleepData : prog unit := ret tt.

(** [while ((data = dataFile.read()) > 0) Serial.write(data);] on a file
    with the bytes [content] left. *)
Fixpoint copy_file (content : list Z) : prog unit :=
  match content with
  | [] => emit (FileRead (-1))
  | data :: rest =>
      emit (FileRead data) ;;
      if 0 <? data then emit (SerialWrite data) ;; copy_file rest
      else ret tt
  end.

Definition sendData : prog unit :=
  Serial_println "<log message='Sending SD card data'/>" ;;
  dataFile <- SD_open_read LOG_FILE ;;
  match dataFile with
  | Some content =>
      Serial_println "<cmd name='data'>" ;;
      copy_file content ;;
      Serial_println "</cmd>" ;;
      emit FileClose
  | None =>
      Serial_println "<log message='Error opening LOG.TXT...'/>"
  end.

Definition resetDevice : prog unit :=
  Serial_println "<log message='Reset SD card data'/>" ;;
  removed <- SD_remove LOG_FILE ;;
  if negb removed then
    Serial_println "<log message='Error deleting LOG.TXT...'/>"
  else ret tt.

Definition idle : prog unit :=
  processSyncButton ;;
  processSleepButton.

Definition sync : prog unit :=
  processSyncButton ;;
  n <- Serial_available ;;
  if 0 <? n then
    character <- Serial_read ;;
    if character =? CHAR_D then
      Serial_println "<log message='Received: Read data'>" ;;
      sendData
    else if character =? CHAR_R then
      Serial_println "<log message='Received: Reset device'>" ;;
      resetDevice
    else ret tt
  else ret tt.

Definition sleep : prog unit :=
  processSleepButton ;;
  processSleepData.

Definition loop : prog unit :=
  m <- get mode ;;
  if m =? MODE_NONE then idle
  else if m =? MODE_SYNC then sync
  else if m =? MODE_SLEEP then sleep
  else ret tt.

End SDCard.

(** ** The first variant of the sketch: buttons and SD log only *)

Module Legacy.

Definition logData (message : string) : prog unit :=
  dataFile <- SDCard.SD_open_write "LOG.TXT" ;;
  if dataFile : bool then
    emit (FilePrintln message) ;;
    emit FileClose
  else
    Serial_println "<log message='Error opening LOG.TXT...'/>".

Definition processSyncButton : prog unit :=
  m <- get mode ;;
  if (m =? MODE_NONE) || (m =? MODE_SYNC) then
    syncState <- digitalRead PIN_BUTTON_SYNC ;;
    prev <- get prevSyncState ;;
    if (prev =? LOW) && (syncState =? HIGH) then
      (m <- get mode ;;
       if m =? MODE_NONE then
         store Vmode MODE_SYNC ;;
         digitalWrite PIN_LED_SYNC HIGH ;;
         logData "LOG: Sync button was pressed, sync mode enabled"
       else if m =? MODE_SYNC then
         store Vmode MODE_NONE ;;
         digitalWrite PIN_LED_SYNC LOW ;;
         logData "LOG: Sync button was pressed, sync mode disabled"
       else ret tt) ;;
      delay REST
    else ret tt
  else ret tt.

Definition processSleepButton : prog unit :=
  m <- get mode ;;
  if (m =? MODE_NONE) || (m =? MODE_SLEEP) then
    sleepState <- digitalRead PIN_BUTTON_SLEEP ;;
    prev <- get prevSleepState ;;
    if (prev =? LOW) && (sleepState =? HIGH) then
      (m <- get mode ;;
       if m =? MODE_NONE then
         store Vmode MODE_SLEEP ;;
         digitalWrite PIN_LED_SLEEP HIGH ;;
         logData "LOG: Sleep button was pressed, sleep mode enabled"
       else if m =? MODE_SLEEP then
         store Vmode MODE_NONE ;;
         digitalWrite PIN_LED_SLEEP LOW ;;
         logData "LOG: Sleep button was pressed, sleep mode disabled"
       else ret tt) ;;
      delay REST
    else ret tt
  else ret tt.

Definition idle : prog unit :=
  processSyncButton ;;
  processSleepButton.

Definition sync : prog unit := processSyncButton.

Definition sleep : prog unit := processSleepButton.

Definition loop : prog unit :=
  m <- get mode ;;
  if m =? MODE_NONE then idle
  else if m =? MODE_SYNC then sync
  else if m =? MODE_SLEEP then sleep
  else ret tt.

End Legacy.

(** * Vocabulary of the properties *)

(** The reduction in the words of the specification: divide X and Y by 100,
    take the absolute value of each, average the two. *)
Definition step_of (x y : Z) : Z :=
  Z.quot (Z.abs (Z.quot x 100) + Z.abs (Z.quot y 100)) 2.

(** The summary line for the accumulator of [s]. *)
Definition summary (s : state) : string :=
  ((("SLEEP: duration=" ++ string_of_Z (AcCount s))
      ++ ", activity=") ++ string_of_Z (AcTotal s))%string.

(** The bytes in the receive buffer after [Wire.requestFrom(MPU_ADDRESS,14,true)]. *)
Definition received (e : env) : list Z := firstn 14 (wireResponse e).

(** The word that two successive [Wire.read()] make of the buffer [l]. *)
Definition word_of (l : list Z) : Z :=
  int16 (Z.lor (Z.shiftl (nth 0 l (-1)) 8) (nth 1 l (-1))).

(** The two words of a sample that are used: X and Y acceleration. *)
Definition sensorX (e : env) : Z := word_of (received e).
Definition sensorY (e : env) : Z := word_of (skipn 2 (received e)).

(** The events of the two reads of a word. *)
Definition word_reads (l : list Z) : trace :=
  [WireRead (nth 0 l (-1)); WireRead (nth 1 l (-1))].

(** The events of [n] successive word reads. *)
Fixpoint words_reads (n : nat) (l : list Z) : trace :=
  match n with
  | O => []
  | S n' => word_reads l ++ words_reads n' (skipn 2 l)
  end.

(** The step a sample adds: the value assigned to [AcStep]. *)
Definition sample_step (e : env) : Z :=
  int16 (Console.normalise (sensorX e) (sensorY e)).

(** The state after a sample. *)
Definition sampled (e : env) (s : state) : state :=
  mkState (mode s) (prevSyncState s) (prevSleepState s)
    (sample_step e)
    (int16 (AcCount s + 1))
    (int32 (AcTotal s + sample_step e))
    (Nat.iter 7 (skipn 2) (received e))
    (serialBuf s).

(** The events of a sample. *)
Definition sample_trace (e : env) (s : state) : trace :=
  [WireBeginTransmission MPU_ADDRESS; WireWrite 59; WireEndTransmission false;
   WireRequestFrom MPU_ADDRESS 14 true]
  ++ words_reads 7 (received e)
  ++ [Store VAcCount (int16 (AcCount s + 1));
      Store VAcStep (sample_step e);
      Store VAcTotal (int32 (AcTotal s + sample_step e));
      AnalogWrite PIN_LED_ACTIVE (sample_step e);
      Delay REST].

(** The events of the four transitions. *)
Definition sync_on_trace : trace :=
  [DigitalRead PIN_BUTTON_SYNC HIGH; Store Vmode MODE_SYNC;
   DigitalWrite PIN_LED_SYNC HIGH;
   Println "<log message='LOG: Sync button was pressed, sync mode enabled'/>";
   Delay REST].

Definition sync_off_trace : trace :=
  [DigitalRead PIN_BUTTON_SYNC HIGH; Store Vmode MODE_NONE;
   DigitalWrite PIN_LED_SYNC LOW;
   Println "<log message='LOG: Sync button was pressed, sync mode disabled'/>";
   Delay REST].

Definition sleep_on_trace : trace :=
  [DigitalRead PIN_BUTTON_SLEEP HIGH; Store Vmode MODE_SLEEP;
   Store VAcStep 0; Store VAcCount 0; Store VAcTotal 0;
   DigitalWrite PIN_LED_SLEEP HIGH;
   Println "<log message='LOG: Sleep button was pressed, sleep mode enabled'/>";
   Delay REST].

Definition sleep_off_trace (s : state) : trace :=
  [DigitalRead PIN_BUTTON_SLEEP HIGH; Store Vmode MODE_NONE;
   DigitalWrite PIN_LED_SLEEP LOW;
   AnalogWrite PIN_LED_ACTIVE 0;
   Println "<log message='LOG: Sleep button was pressed, sleep mode disabled'/>";
   Println ("<log message='" ++ (summary s ++ "'/>"))%string;
   Delay REST].

(** The state on entering the sleep mode: the accumulator is zeroed. *)
Definition sleep_entered (s : state) : state :=
  assign VAcTotal 0 (assign VAcCount 0 (assign VAcStep 0
    (assign Vmode MODE_SLEEP s))).

Definition state_after {A : Type} (c : prog A) (e : env) (s : state) : state :=
  snd (fst (c e s)).

Definition trace_of {A : Type} (c : prog A) (e : env) (s : state) : trace :=
  snd (c e s).

(** [c] maintains the invariant [P]. *)
Definition preserves {A : Type} (P : state -> Prop) (c : prog A) : Prop :=
  forall e s, P s -> P (state_after c e s).

(** [c] leaves the observation [f] of the state as it was. *)
Definition keeps {A B : Type} (f : state -> B) (c : prog A) : Prop :=
  forall e s, f (state_after c e s) = f s.

Definition valid_mode (s : state) : Prop :=
  mode s = MODE_NONE \/ mode s = MODE_SYNC \/ mode s = MODE_SLEEP.

(** Exactly one of the three modes holds. *)
Definition exactly_one_mode (s : state) : Prop :=
  (mode s = MODE_NONE /\ mode s <> MODE_SYNC /\ mode s <> MODE_SLEEP)
  \/ (mode s <> MODE_NONE /\ mode s = MODE_SYNC /\ mode s <> MODE_SLEEP)
  \/ (mode s <> MODE_NONE /\ mode s <> MODE_SYNC /\ mode s = MODE_SLEEP).

(** The state when [loop] starts: what arrived on the serial port is queued. *)
Definition arrived (e : env) (s : state) : state :=
  with_serialBuf (serialBuf s ++ serialArrived e) s.

Definition with_pinSync (x : Z) (e : env) : env :=
  mkEnv x (pinSleep e) (wireResponse e) (serialArrived e) (sdOpenWrite e)
    (sdOpenRead e) (sdRemove e).

Definition with_pinSleep (x : Z) (e : env) : env :=
  mkEnv (pinSync e) x (wireResponse e) (serialArrived e) (sdOpenWrite e)
    (sdOpenRead e) (sdRemove e).

(** What [sync] does after polling its button: the command dispatch. *)
Definition serial_part : prog unit :=
  n <- Serial_available ;;
  if 0 <? n then
    character <- Serial_read ;;
    if character =? CHAR_D then
      Serial_println "<log message='Received: Read data'>" ;;
      Console.sendData
    else if character =? CHAR_R then
      Serial_println "<log message='Received: Reset device'>" ;;
      Console.resetDevice
    else ret tt
  else ret tt.

(** The lines of the answer to the command D. *)
Definition data_response (s : state) : trace :=
  [Println "<log message='Received: Read data'>";
   Println "<log message='Sending sleep data'/>";
   Println "<cmd name='data'>";
   Println (summary s);
   Println "</cmd>"].

(** The buttons as the environment of one iteration. *)
Definition buttons (sy sl : Z) : env := mkEnv sy sl [] [] false None false.

(** The stored button levels. *)
Definition prev_levels (s : state) : Z * Z :=
  (prevSyncState s, prevSleepState s).

(** The accumulator as the summary reports it. *)
Definition accumulator (s : state) : Z * Z := (AcCount s, AcTotal s).

(** The iterations of a session: the sleep button stays LOW. *)
Definition quiet (es : list env) : Prop :=
  Forall (fun e => pinSleep e = LOW) es.

(** The per-sample steps, by the reduction of the specification. *)
Definition steps (es : list env) : list Z :=
  map (fun e => step_of (sensorX e) (sensorY e)) es.

Definition total (l : list Z) : Z := fold_right Z.add 0 l.

Definition is_int32 (z : Z) : Prop := - 2147483648 <= z <= 2147483647.

(** A sample of the sensor: the X and Y words, high byte first, and the
    five words that are read and dropped. *)
Definition reading (x y : Z) : env :=
  mkEnv LOW LOW
    [Z.land (Z.shiftr x 8) 255; Z.land x 255;
     Z.land (Z.shiftr y 8) 255; Z.land y 255;
     0; 0; 0; 0; 0; 0; 0; 0; 0; 0]
    [] false None false.

(** The iteration in which the sleep button ends the session while the
    sensor answers (100,100). *)
Definition ending : env :=
  mkEnv LOW HIGH (wireResponse (reading 100 100)) [] false None false.

(** The iteration in which the byte [c] arrives on the console. *)
Definition command (c : Z) : env := mkEnv LOW LOW [] [c] false None false.

(** Every event of [c] satisfies [Q]. *)
Definition emits_only {A : Type} (Q : event -> Prop) (c : prog A) : Prop :=
  forall e s, Forall Q (trace_of c e s).

(** The line that reports a failed delete. *)
Definition delete_error : string := "<log message='Error deleting LOG.TXT...'/>".

Definition not_delete_error (ev : event) : Prop := ev <> Println delete_error.

(** What the SD variant of [sync] does after polling its button. *)
Definition SD_serial_part : prog unit :=
  n <- Serial_available ;;
  if 0 <? n then
    character <- Serial_read ;;
    if character =? CHAR_D then
      Serial_println "<log message='Received: Read data'>" ;;
      SDCard.sendData
    else if character =? CHAR_R then
      Serial_println "<log message='Received: Reset device'>" ;;
      SDCard.resetDevice
    else ret tt
  else ret tt.

(** The events of the command R in the SD variant. *)
Definition reset_trace (e : env) : trace :=
  [SerialRead CHAR_R;
   Println "<log message='Received: Reset device'>";
   Println "<log message='Reset SD card data'/>";
   SdRemove LOG_FILE (sdRemove e)]
  ++ (if sdRemove e then [] else [Println delete_error]).

(** The bytes written to the console with [Serial.write]. *)
Fixpoint written (t : trace) : list Z :=
  match t with
  | [] => []
  | SerialWrite b :: t' => b :: written t'
  | _ :: t' => written t'
  end.

(** The bytes of a file up to its first byte that is not positive. *)
Fixpoint positive_prefix (content : list Z) : list Z :=
  match content with
  | [] => []
  | b :: rest => if 0 <? b then b :: positive_prefix rest else []
  end.

(** Iterations during which the sync button reads HIGH. *)
Definition held (es : list env) : Prop :=
  Forall (fun e => pinSync e = HIGH) es.

(** The value of the 16-bit word with the bytes [hi] and [lo]. *)
Definition big_endian (hi lo : Z) : Z := int16 (256 * hi + lo).

(** The events of copying a file with the bytes [content] to the console:
    every byte is read, the positive ones are written, and the first byte
    that is not positive (or the end of the file, read as -1) ends the
    copy. *)
Fixpoint copy_events (content : list Z) : trace :=
  match content with
  | [] => [FileRead (-1)]
  | b :: rest =>
      FileRead b :: if 0 <? b then SerialWrite b :: copy_events rest else []
  end.

(** The summary line for a count [n] and a total [t]. *)
Definition summary_line (n t : Z) : string :=
  ((("SLEEP: duration=" ++ string_of_Z n)
      ++ ", activity=") ++ string_of_Z t)%string.

(** Along the iterations [es] from [s] the mode is never MODE_SLEEP, neither
    before nor after any of them. *)
Fixpoint awake (es : list env) (s : state) : bool :=
  match es with
  | [] => negb (mode s =? MODE_SLEEP)
  | e :: es' =>
      negb (mode s =? MODE_SLEEP) && awake es' (fst (Console.iteration e s))
  end.

(** * Properties *)

(** ** Machine integers *)

Lemma int16_id (z : Z) : is_int16 z -> int16 z = z.
Proof.
  unfold is_int16, INT_MIN, INT_MAX, int16, wrap. intros H.
  change (2 ^ (16 - 1)) with 32768. change (2 ^ 16) with 65536.
  rewrite Z.mod_small by lia. lia.
Qed.

Lemma int16_range (z : Z) : is_int16 (int16 z).
Proof.
  unfold is_int16, INT_MIN, INT_MAX, int16, wrap.
  change (2 ^ (16 - 1)) with 32768. change (2 ^ 16) with 65536.
  pose proof (Z.mod_pos_bound (z + 32768) 65536). lia.
Qed.

Lemma int32_id (z : Z) : - 2147483648 <= z <= 2147483647 -> int32 z = z.
Proof.
  unfold int32, wrap. intros H.
  change (2 ^ (32 - 1)) with 2147483648. change (2 ^ 32) with 4294967296.
  rewrite Z.mod_small by lia. lia.
Qed.

(** ** The sample reduction *)

Lemma quot100_range (x : Z) : is_int16 x -> -327 <= Z.quot x 100 <= 327.
Proof.
  unfold is_int16, INT_MIN, INT_MAX. intros [Hlo Hhi]. split.
  - change (-327) with (Z.quot (-32768) 100). apply Z.quot_le_mono; lia.
  - change 327 with (Z.quot 32767 100). apply Z.quot_le_mono; lia.
Qed.

Lemma abs_quot100 (x : Z) :
  is_int16 x ->
  (let a := int16 (Z.quot x 100) in if a <? 0 then int16 (a * -1) else a)
  = Z.abs (Z.quot x 100).
Proof.
  intros H. pose proof (quot100_range x H) as Hq. cbv zeta.
  rewrite (int16_id (Z.quot x 100)) by (unfold is_int16, INT_MIN, INT_MAX; lia).
  destruct (Z.ltb_spec (Z.quot x 100) 0).
  - rewrite int16_id by (unfold is_int16, INT_MIN, INT_MAX; lia). lia.
  - lia.
Qed.

Lemma normalise_step_of (x y : Z) :
  is_int16 x -> is_int16 y -> Console.normalise x y = step_of x y.
Proof.
  intros Hx Hy. unfold Console.normalise, step_of.
  pose proof (abs_quot100 x Hx) as Ex. pose proof (abs_quot100 y Hy) as Ey.
  cbv zeta in Ex, Ey |- *. rewrite Ex, Ey. reflexivity.
Qed.

Lemma step_of_range (x y : Z) :
  is_int16 x -> is_int16 y -> 0 <= step_of x y <= 327.
Proof.
  intros Hx Hy. unfold step_of.
  pose proof (quot100_range x Hx). pose proof (quot100_range y Hy).
  split.
  - apply Z.quot_pos; lia.
  - change 327 with (Z.quot 654 2). apply Z.quot_le_mono; lia.
Qed.

(** ** What each function of the console variant does *)

Lemma summariseSleepData_eq (e : env) (s : state) :
  Console.summariseSleepData e s = (summary s, s, []).
Proof.
  reflexivity.
Qed.

Lemma read_word_eq (e : env) (s : state) :
  Console.read_word e s
  = (word_of (wireBuf s), with_wireBuf (skipn 2 (wireBuf s)) s,
     word_reads (wireBuf s)).
Proof.
  destruct s as [m ps pl st n t w sb].
  destruct w as [|a [|b w]]; reflexivity.
Qed.

Arguments int16 : simpl never.
Arguments int32 : simpl never.
Arguments Console.normalise : simpl never.
Arguments word_of : simpl never.
Arguments word_reads : simpl never.
Arguments skipn : simpl never.
Arguments received : simpl never.

Lemma processSleepData_eq (e : env) (s : state) :
  Console.processSleepData e s = (tt, sampled e s, sample_trace e s).
Proof.
  unfold Console.processSleepData.
  unfold bind at 1 2 3 4. cbn.
  do 7 (unfold bind at 1; rewrite read_word_eq; cbn).
  change (Pos.to_nat 14) with 14%nat.
  unfold sampled, sample_trace, sample_step, sensorX, sensorY, received.
  unfold Nat.iter. cbn [words_reads nat_rect app].
  rewrite <- !app_assoc. reflexivity.
Qed.

Lemma sample_step_eq (e : env) :
  sample_step e = step_of (sensorX e) (sensorY e).
Proof.
  unfold sample_step.
  assert (Hx : is_int16 (sensorX e)) by apply int16_range.
  assert (Hy : is_int16 (sensorY e)) by apply int16_range.
  rewrite normalise_step_of by assumption.
  pose proof (step_of_range _ _ Hx Hy).
  apply int16_id. unfold is_int16, INT_MIN, INT_MAX. lia.
Qed.

Lemma sample_step_range (e : env) : 0 <= sample_step e <= 327.
Proof.
  rewrite sample_step_eq. apply step_of_range; apply int16_range.
Qed.

Lemma activity_levels_app (t1 t2 : trace) :
  activity_levels (t1 ++ t2) = activity_levels t1 ++ activity_levels t2.
Proof.
  induction t1 as [|ev t1 IH]; [reflexivity|].
  destruct ev; cbn [activity_levels app]; try exact IH.
  destruct (pin =? PIN_LED_ACTIVE); cbn [app]; now rewrite IH.
Qed.

Lemma console_app (t1 t2 : trace) :
  console (t1 ++ t2) = console t1 ++ console t2.
Proof.
  induction t1 as [|ev t1 IH]; [reflexivity|].
  destruct ev; cbn [console app]; try exact IH. now rewrite IH.
Qed.

Lemma words_reads_quiet (n : nat) (l : list Z) :
  activity_levels (words_reads n l) = [] /\ console (words_reads n l) = [].
Proof.
  revert l. induction n as [|n IH]; intros l; [split; reflexivity|].
  cbn [words_reads]. rewrite activity_levels_app, console_app.
  destruct (IH (skipn 2 l)) as [-> ->]. split; reflexivity.
Qed.

Lemma sample_trace_levels (e : env) (s : state) :
  activity_levels (sample_trace e s) = [sample_step e].
Proof.
  unfold sample_trace. rewrite !activity_levels_app.
  destruct (words_reads_quiet 7 (received e)) as [-> _]. reflexivity.
Qed.

Lemma sample_trace_console (e : env) (s : state) :
  console (sample_trace e s) = [].
Proof.
  unfold sample_trace. rewrite !console_app.
  destruct (words_reads_quiet 7 (received e)) as [_ ->]. reflexivity.
Qed.

(** ** The button handlers *)

Ltac destruct_state s :=
  let m := fresh "m" in let ps := fresh "ps" in let pl := fresh "pl" in
  let st := fresh "st" in let n := fresh "n" in let tot := fresh "tot" in
  let w := fresh "w" in let sb := fresh "sb" in
  destruct s as [m ps pl st n tot w sb]; cbn [mode prevSyncState prevSleepState
    AcStep AcCount AcTotal wireBuf serialBuf] in *.

(** Symbolic evaluation of a handler: unfold the monad, reduce the
    projections, and use the tests whose outcome is known. *)
Ltac eval_prog :=
  repeat (
    cbn beta iota zeta delta
      [mode prevSyncState prevSleepState AcStep AcCount AcTotal wireBuf
       serialBuf pinSync pinSleep wireResponse serialArrived sdOpenWrite
       sdOpenRead sdRemove bind get ret emit store digitalRead digitalWrite
       analogWrite delay Serial_println orb andb negb app];
    repeat match goal with
    | H : (?a =? ?b) = _ |- context [?a =? ?b] => rewrite H
    | |- context [?a =? ?a] => rewrite (Z.eqb_refl a)
    | |- context [PIN_BUTTON_SLEEP =? PIN_BUTTON_SYNC] =>
        change (PIN_BUTTON_SLEEP =? PIN_BUTTON_SYNC) with false
    end).

(** The sync button is not even read while the sleep mode is on. *)
Lemma processSyncButton_in_sleep (e : env) (s : state) :
  mode s = MODE_SLEEP -> Console.processSyncButton e s = (tt, s, []).
Proof.
  intros H. destruct_state s. subst m. reflexivity.
Qed.

(** The sleep button is not even read while the sync mode is on. *)
Lemma processSleepButton_in_sync (e : env) (s : state) :
  mode s = MODE_SYNC -> Console.processSleepButton e s = (tt, s, []).
Proof.
  intros H. destruct_state s. subst m. reflexivity.
Qed.

(** The sync button handler does one of three things: nothing but
    possibly reading the pin, switching the sync mode on, switching it
    off. *)
Lemma processSyncButton_cases (e : env) (s : state) :
  (Console.processSyncButton e s = (tt, s, [])
   /\ mode s <> MODE_NONE /\ mode s <> MODE_SYNC)
  \/ (Console.processSyncButton e s
      = (tt, s, [DigitalRead PIN_BUTTON_SYNC (pinSync e)])
      /\ (mode s = MODE_NONE \/ mode s = MODE_SYNC)
      /\ (prevSyncState s <> LOW \/ pinSync e <> HIGH))
  \/ (Console.processSyncButton e s
      = (tt, assign Vmode MODE_SYNC s, sync_on_trace)
      /\ mode s = MODE_NONE /\ prevSyncState s = LOW /\ pinSync e = HIGH)
  \/ (Console.processSyncButton e s
      = (tt, assign Vmode MODE_NONE s, sync_off_trace)
      /\ mode s = MODE_SYNC /\ prevSyncState s = LOW /\ pinSync e = HIGH).
Proof.
  destruct_state s. destruct e as [psy psl wr sa ow ord rm].
  cbn [pinSync].
  destruct (m =? MODE_NONE) eqn:Em; [apply Z.eqb_eq in Em|].
  - destruct (ps =? LOW) eqn:Ep; [apply Z.eqb_eq in Ep|].
    + destruct (psy =? HIGH) eqn:El; [apply Z.eqb_eq in El|].
      * subst. right; right; left. repeat split; reflexivity.
      * subst. right; left. split.
        -- unfold Console.processSyncButton. eval_prog. reflexivity.
        -- split; [now left | right; now apply Z.eqb_neq].
    + subst. right; left. split.
      * unfold Console.processSyncButton. eval_prog. reflexivity.
      * split; [now left | left; now apply Z.eqb_neq].
  - destruct (m =? MODE_SYNC) eqn:Es; [apply Z.eqb_eq in Es|].
    + destruct (ps =? LOW) eqn:Ep; [apply Z.eqb_eq in Ep|].
      * destruct (psy =? HIGH) eqn:El; [apply Z.eqb_eq in El|].
        -- subst. right; right; right. repeat split; reflexivity.
        -- subst. right; left. split.
           ++ unfold Console.processSyncButton. eval_prog. reflexivity.
           ++ split; [now right | right; now apply Z.eqb_neq].
      * subst. right; left. split.
        -- unfold Console.processSyncButton. eval_prog. reflexivity.
        -- split; [now right | left; now apply Z.eqb_neq].
    + left. split.
      * unfold Console.processSyncButton. eval_prog. reflexivity.
      * split; now apply Z.eqb_neq.
Qed.

(** The sleep button handler likewise: nothing but possibly reading the
    pin, entering the sleep mode, leaving it. *)
Lemma processSleepButton_cases (e : env) (s : state) :
  (Console.processSleepButton e s = (tt, s, [])
   /\ mode s <> MODE_NONE /\ mode s <> MODE_SLEEP)
  \/ (Console.processSleepButton e s
      = (tt, s, [DigitalRead PIN_BUTTON_SLEEP (pinSleep e)])
      /\ (mode s = MODE_NONE \/ mode s = MODE_SLEEP)
      /\ (prevSleepState s <> LOW \/ pinSleep e <> HIGH))
  \/ (Console.processSleepButton e s
      = (tt, sleep_entered s, sleep_on_trace)
      /\ mode s = MODE_NONE /\ prevSleepState s = LOW /\ pinSleep e = HIGH)
  \/ (Console.processSleepButton e s
      = (tt, assign Vmode MODE_NONE s, sleep_off_trace s)
      /\ mode s = MODE_SLEEP /\ prevSleepState s = LOW /\ pinSleep e = HIGH).
Proof.
  destruct_state s. destruct e as [psy psl wr sa ow ord rm].
  cbn [pinSleep].
  destruct (m =? MODE_NONE) eqn:Em; [apply Z.eqb_eq in Em|].
  - destruct (pl =? LOW) eqn:Ep; [apply Z.eqb_eq in Ep|].
    + destruct (psl =? HIGH) eqn:El; [apply Z.eqb_eq in El|].
      * subst. right; right; left. repeat split; reflexivity.
      * subst. right; left. split.
        -- unfold Console.processSleepButton. eval_prog. reflexivity.
        -- split; [now left | right; now apply Z.eqb_neq].
    + subst. right; left. split.
      * unfold Console.processSleepButton. eval_prog. reflexivity.
      * split; [now left | left; now apply Z.eqb_neq].
  - destruct (m =? MODE_SLEEP) eqn:Es; [apply Z.eqb_eq in Es|].
    + destruct (pl =? LOW) eqn:Ep; [apply Z.eqb_eq in Ep|].
      * destruct (psl =? HIGH) eqn:El; [apply Z.eqb_eq in El|].
        -- subst. right; right; right. repeat split; reflexivity.
        -- subst. right; left. split.
           ++ unfold Console.processSleepButton. eval_prog. reflexivity.
           ++ split; [now right | right; now apply Z.eqb_neq].
      * subst. right; left. split.
        -- unfold Console.processSleepButton. eval_prog. reflexivity.
        -- split; [now right | left; now apply Z.eqb_neq].
    + left. split.
      * unfold Console.processSleepButton. eval_prog. reflexivity.
      * split; now apply Z.eqb_neq.
Qed.

(** ** Invariants and frames through the monad *)

Section Structural.
Context {A B : Type}.
Variable P : state -> Prop.

Lemma state_after_bind (c : prog A) (k : A -> prog B) (e : env) (s : state) :
  state_after (bind c k) e s
  = state_after (k (fst (fst (c e s)))) e (state_after c e s).
Proof.
  unfold state_after, bind.
  destruct (c e s) as [[a s1] t1]. cbn [fst snd].
  destruct (k a e s1) as [[b s2] t2]. reflexivity.
Qed.

Lemma preserves_bind (c : prog A) (k : A -> prog B) :
  preserves P c -> (forall a, preserves P (k a)) -> preserves P (bind c k).
Proof.
  intros Hc Hk e s Hs. rewrite state_after_bind. apply Hk, Hc, Hs.
Qed.

Lemma preserves_if (b : bool) (c1 c2 : prog A) :
  preserves P c1 -> preserves P c2 -> preserves P (if b then c1 else c2).
Proof. destruct b; auto. Qed.

Lemma preserves_ret (a : A) : preserves P (ret a).
Proof. intros e s Hs. exact Hs. Qed.

Lemma preserves_get (f : state -> A) : preserves P (get f).
Proof. intros e s Hs. exact Hs. Qed.

Variable C : Type.
Variable f : state -> C.

Lemma keeps_bind (c : prog A) (k : A -> prog B) :
  keeps f c -> (forall a, keeps f (k a)) -> keeps f (bind c k).
Proof.
  intros Hc Hk e s. rewrite state_after_bind. now rewrite Hk, Hc.
Qed.

Lemma keeps_if (b : bool) (c1 c2 : prog A) :
  keeps f c1 -> keeps f c2 -> keeps f (if b then c1 else c2).
Proof. destruct b; auto. Qed.

Lemma keeps_ret (a : A) : keeps f (ret a).
Proof. intros e s. reflexivity. Qed.

Lemma keeps_get (g : state -> A) : keeps f (get g).
Proof. intros e s. reflexivity. Qed.
End Structural.

Lemma preserves_emit (P : state -> Prop) (ev : event) : preserves P (emit ev).
Proof. intros e s Hs. exact Hs. Qed.

Lemma keeps_emit {C : Type} (f : state -> C) (ev : event) : keeps f (emit ev).
Proof. intros e s. reflexivity. Qed.

Lemma preserves_digitalRead (P : state -> Prop) (pin : Z) :
  preserves P (digitalRead pin).
Proof. intros e s Hs. exact Hs. Qed.

Lemma keeps_digitalRead {C : Type} (f : state -> C) (pin : Z) :
  keeps f (digitalRead pin).
Proof. intros e s. reflexivity. Qed.

Lemma preserves_logData (P : state -> Prop) (m : string) :
  preserves P (Console.logData m).
Proof. intros e s Hs. exact Hs. Qed.

Lemma keeps_logData {C : Type} (f : state -> C) (m : string) :
  keeps f (Console.logData m).
Proof. intros e s. reflexivity. Qed.

Create HintDb frame.
#[export] Hint Resolve preserves_ret preserves_get preserves_emit
  preserves_digitalRead preserves_logData keeps_ret keeps_get keeps_emit
  keeps_digitalRead keeps_logData : frame.

(** ** The mode invariant *)

Lemma valid_mode_exactly_one (s : state) : valid_mode s -> exactly_one_mode s.
Proof.
  unfold valid_mode, exactly_one_mode, MODE_NONE, MODE_SYNC, MODE_SLEEP. lia.
Qed.

Lemma preserves_store_mode (v : Z) :
  v = MODE_NONE \/ v = MODE_SYNC \/ v = MODE_SLEEP ->
  preserves valid_mode (store Vmode v).
Proof. intros Hv e s _. exact Hv. Qed.

Lemma preserves_store_other (x : var) (v : Z) :
  x <> Vmode -> preserves valid_mode (store x v).
Proof. intros Hx e s Hs. destruct x; [congruence | exact Hs ..]. Qed.

(** One step through the structure of a program. *)
Ltac frame_step :=
  match goal with
  | |- preserves _ (bind _ _) => apply preserves_bind; [|intros ?]
  | |- preserves _ (if _ then _ else _) => apply preserves_if
  | |- keeps _ (bind _ _) => apply keeps_bind; [|intros ?]
  | |- keeps _ (if _ then _ else _) => apply keeps_if
  | |- preserves _ (digitalWrite _ _) => apply preserves_emit
  | |- preserves _ (analogWrite _ _) => apply preserves_emit
  | |- preserves _ (delay _) => apply preserves_emit
  | |- preserves _ (Serial_println _) => apply preserves_emit
  | |- keeps _ (digitalWrite _ _) => apply keeps_emit
  | |- keeps _ (analogWrite _ _) => apply keeps_emit
  | |- keeps _ (delay _) => apply keeps_emit
  | |- keeps _ (Serial_println _) => apply keeps_emit
  | |- keeps _ (store _ _) => intros ? ?; reflexivity
  | |- preserves valid_mode (store Vmode _) =>
      apply preserves_store_mode; auto
  | |- preserves valid_mode (store _ _) =>
      apply preserves_store_other; discriminate
  end.

Ltac frame := repeat frame_step; auto with frame.

Lemma processSyncButton_valid : preserves valid_mode Console.processSyncButton.
Proof. unfold Console.processSyncButton. frame. Qed.

Lemma summariseSleepData_valid :
  preserves valid_mode Console.summariseSleepData.
Proof. unfold Console.summariseSleepData. frame. Qed.

Lemma processSleepButton_valid : preserves valid_mode Console.processSleepButton.
Proof.
  unfold Console.processSleepButton. frame. apply summariseSleepData_valid.
Qed.

Lemma processSleepData_valid : preserves valid_mode Console.processSleepData.
Proof.
  intros e s Hs. unfold state_after. rewrite processSleepData_eq. exact Hs.
Qed.

Lemma sendData_valid : preserves valid_mode Console.sendData.
Proof. unfold Console.sendData. frame. apply summariseSleepData_valid. Qed.

Lemma Serial_read_valid : preserves valid_mode Serial_read.
Proof.
  intros e s Hs. unfold state_after, Serial_read.
  destruct (serialBuf s); exact Hs.
Qed.

Lemma sync_valid : preserves valid_mode Console.sync.
Proof.
  unfold Console.sync, Serial_available, Console.resetDevice. frame.
  - apply processSyncButton_valid.
  - apply Serial_read_valid.
  - apply sendData_valid.
Qed.

Lemma loop_valid : preserves valid_mode Console.loop.
Proof.
  unfold Console.loop, Console.idle, Console.sleep. frame.
  - apply processSyncButton_valid.
  - apply processSleepButton_valid.
  - apply sync_valid.
  - apply processSleepButton_valid.
  - apply processSleepData_valid.
Qed.

Lemma iteration_valid (e : env) (s : state) :
  valid_mode s -> valid_mode (fst (Console.iteration e s)).
Proof.
  intros Hs. unfold Console.iteration, exec.
  pose proof (loop_valid e (with_serialBuf (serialBuf s ++ serialArrived e) s) Hs)
    as H.
  unfold state_after in H. unfold bind, Console.receive.
  destruct (Console.loop e _) as [[u s'] t]. exact H.
Qed.

Lemma run_valid (es : list env) (s : state) :
  valid_mode s -> valid_mode (fst (Console.run es s)).
Proof.
  revert s. induction es as [|e es IH]; intros s Hs; [exact Hs|].
  cbn [Console.run].
  pose proof (iteration_valid e s Hs) as H1.
  destruct (Console.iteration e s) as [s1 t1]. cbn [fst] in H1.
  specialize (IH s1 H1). destruct (Console.run es s1) as [s2 t2]. exact IH.
Qed.

(** ** The dispatch of the main loop *)

Lemma iteration_idle (e : env) (s : state) :
  mode s = MODE_NONE ->
  Console.iteration e s = exec Console.idle e (arrived e s).
Proof.
  intros H. destruct_state s. subst m.
  unfold Console.iteration, exec, Console.receive, Console.loop, arrived,
    with_serialBuf, bind, get.
  cbn [mode prevSyncState prevSleepState AcStep AcCount AcTotal wireBuf
         serialBuf].
  change (MODE_NONE =? MODE_NONE) with true.

  cbn iota.
  destruct (Console.idle e _) as [[u s'] t']. reflexivity.
Qed.

Lemma iteration_sync (e : env) (s : state) :
  mode s = MODE_SYNC ->
  Console.iteration e s = exec Console.sync e (arrived e s).
Proof.
  intros H. destruct_state s. subst m.
  unfold Console.iteration, exec, Console.receive, Console.loop, arrived,
    with_serialBuf, bind, get.
  cbn [mode prevSyncState prevSleepState AcStep AcCount AcTotal wireBuf
         serialBuf].
  change (MODE_SYNC =? MODE_NONE) with false.
  change (MODE_SYNC =? MODE_SYNC) with true.
  cbn iota.
  destruct (Console.sync e _) as [[u s'] t']. reflexivity.
Qed.

Lemma iteration_sleep (e : env) (s : state) :
  mode s = MODE_SLEEP ->
  Console.iteration e s = exec Console.sleep e (arrived e s).
Proof.
  intros H. destruct_state s. subst m.
  unfold Console.iteration, exec, Console.receive, Console.loop, arrived,
    with_serialBuf, bind, get.
  cbn [mode prevSyncState prevSleepState AcStep AcCount AcTotal wireBuf
         serialBuf].
  change (MODE_SLEEP =? MODE_NONE) with false.
  change (MODE_SLEEP =? MODE_SYNC) with false.
  change (MODE_SLEEP =? MODE_SLEEP) with true.
  cbn iota.
  destruct (Console.sleep e _) as [[u s'] t']. reflexivity.
Qed.

Lemma sync_unfold : Console.sync = (Console.processSyncButton ;; serial_part).
Proof. reflexivity. Qed.

Lemma sendData_eq (e : env) (s : state) :
  Console.sendData e s
  = (tt, s, [Println "<log message='Sending sleep data'/>";
             Println "<cmd name='data'>";
             Println (summary s);
             Println "</cmd>"]).
Proof. reflexivity. Qed.

Lemma serial_part_none (e : env) (s : state) :
  serialBuf s = [] -> serial_part e s = (tt, s, []).
Proof. intros H. destruct_state s. subst sb. reflexivity. Qed.

Lemma serial_part_D (e : env) (s : state) (rest : list Z) :
  serialBuf s = CHAR_D :: rest ->
  serial_part e s
  = (tt, with_serialBuf rest s, SerialRead CHAR_D :: data_response s).
Proof. intros H. destruct_state s. subst sb. reflexivity. Qed.

Lemma serial_part_R (e : env) (s : state) (rest : list Z) :
  serialBuf s = CHAR_R :: rest ->
  serial_part e s
  = (tt, with_serialBuf rest s,
     [SerialRead CHAR_R; Println "<log message='Received: Reset device'>"]).
Proof. intros H. destruct_state s. subst sb. reflexivity. Qed.

Lemma serial_part_other (e : env) (s : state) (c : Z) (rest : list Z) :
  serialBuf s = c :: rest -> c <> CHAR_D -> c <> CHAR_R ->
  serial_part e s = (tt, with_serialBuf rest s, [SerialRead c]).
Proof.
  intros H HD HR. destruct_state s. subst sb.
  apply Z.eqb_neq in HD, HR.
  unfold serial_part, Serial_available, Serial_read.
  eval_prog. cbn [List.length]. rewrite Nat2Z.inj_succ.
  replace (0 <? Z.succ (Z.of_nat (List.length rest))) with true
    by (symmetry; apply Z.ltb_lt; lia).
  eval_prog. reflexivity.
Qed.

Lemma serial_part_env (e e' : env) (s : state) :
  serial_part e s = serial_part e' s.
Proof.
  destruct (serialBuf s) as [|c rest] eqn:Eb.
  - now rewrite !serial_part_none.
  - destruct (Z.eq_dec c CHAR_D) as [->|HD].
    + now rewrite !(serial_part_D _ _ rest).
    + destruct (Z.eq_dec c CHAR_R) as [->|HR].
      * now rewrite !(serial_part_R _ _ rest).
      * now rewrite !(serial_part_other _ _ c rest).
Qed.

Lemma processSyncButton_env (e e' : env) (s : state) :
  pinSync e = pinSync e' ->
  Console.processSyncButton e s = Console.processSyncButton e' s.
Proof.
  intros Hp.
  destruct (processSyncButton_cases e s) as [[E1 H1]|[[E1 H1]|[[E1 H1]|[E1 H1]]]];
    destruct (processSyncButton_cases e' s)
      as [[E2 H2]|[[E2 H2]|[[E2 H2]|[E2 H2]]]];
    try (exfalso; clear E1 E2;
         unfold MODE_NONE, MODE_SYNC, MODE_SLEEP, LOW, HIGH in *; lia);
    rewrite E1, E2, <- ?Hp; reflexivity.
Qed.

Lemma processSleepButton_env (e e' : env) (s : state) :
  pinSleep e = pinSleep e' ->
  Console.processSleepButton e s = Console.processSleepButton e' s.
Proof.
  intros Hp.
  destruct (processSleepButton_cases e s)
    as [[E1 H1]|[[E1 H1]|[[E1 H1]|[E1 H1]]]];
    destruct (processSleepButton_cases e' s)
      as [[E2 H2]|[[E2 H2]|[[E2 H2]|[E2 H2]]]];
    try (exfalso; clear E1 E2;
         unfold MODE_NONE, MODE_SYNC, MODE_SLEEP, LOW, HIGH in *; lia);
    rewrite E1, E2, <- ?Hp; reflexivity.
Qed.

Lemma processSleepData_env (e e' : env) (s : state) :
  wireResponse e = wireResponse e' ->
  Console.processSleepData e s = Console.processSleepData e' s.
Proof.
  intros H. rewrite !processSleepData_eq.
  unfold sampled, sample_trace, sample_step, sensorX, sensorY, received.
  rewrite H. reflexivity.
Qed.

Lemma arrived_env (e e' : env) (s : state) :
  serialArrived e = serialArrived e' -> arrived e s = arrived e' s.
Proof. intros H. unfold arrived. now rewrite H. Qed.

(** In the sleep mode an iteration does not depend on the sync button. *)
Lemma iteration_sleep_ignores_sync (x : Z) (e : env) (s : state) :
  mode s = MODE_SLEEP ->
  Console.iteration (with_pinSync x e) s = Console.iteration e s.
Proof.
  intros H. rewrite !iteration_sleep by exact H.
  unfold exec, Console.sleep, bind.
  rewrite (arrived_env (with_pinSync x e) e) by reflexivity.
  rewrite (processSleepButton_env (with_pinSync x e) e) by reflexivity.
  destruct (Console.processSleepButton e (arrived e s)) as [[u s1] t1].
  rewrite (processSleepData_env (with_pinSync x e) e) by reflexivity.
  reflexivity.
Qed.

(** In the sync mode an iteration does not depend on the sleep button. *)
Lemma iteration_sync_ignores_sleep (x : Z) (e : env) (s : state) :
  mode s = MODE_SYNC ->
  Console.iteration (with_pinSleep x e) s = Console.iteration e s.
Proof.
  intros H. rewrite !iteration_sync by exact H.
  rewrite sync_unfold. unfold exec, bind.
  rewrite (arrived_env (with_pinSleep x e) e) by reflexivity.
  rewrite (processSyncButton_env (with_pinSleep x e) e) by reflexivity.
  destruct (Console.processSyncButton e (arrived e s)) as [[u s1] t1].
  rewrite (serial_part_env (with_pinSleep x e) e). reflexivity.
Qed.

(** C1. Along every run of the main loop from the initial state, whatever
    the buttons, the serial port and the sensor answer, the mode is exactly
    one of MODE_NONE, MODE_SYNC and MODE_SLEEP, never sync and sleep at
    once.  While the mode is MODE_SLEEP the sync button handler does
    nothing at all (the pin is not read, the mode is kept, nothing is
    logged) and an iteration of the loop is the same whatever the level of
    the sync button; symmetrically for the sleep button while the mode is
    MODE_SYNC. *)
Theorem C1_modes_mutually_exclusive :
  forall (es : list env) (s : state) (t : trace),
    Console.run es initial = (s, t) ->
    exactly_one_mode s
    /\ ~ (mode s = MODE_SYNC /\ mode s = MODE_SLEEP)
    /\ (mode s = MODE_SLEEP ->
        forall e x,
          Console.processSyncButton e s = (tt, s, [])
          /\ Console.iteration (with_pinSync x e) s = Console.iteration e s)
    /\ (mode s = MODE_SYNC ->
        forall e x,
          Console.processSleepButton e s = (tt, s, [])
          /\ Console.iteration (with_pinSleep x e) s = Console.iteration e s).
Proof.
  intros es s t Hrun.
  assert (Hv : valid_mode s).
  { pose proof (run_valid es initial) as H. rewrite Hrun in H.
    apply H. left. reflexivity. }
  split; [apply valid_mode_exactly_one, Hv|].
  split; [unfold MODE_SYNC, MODE_SLEEP; lia|].
  split; intros Hm e x; split.
  - apply processSyncButton_in_sleep, Hm.
  - apply iteration_sleep_ignores_sync, Hm.
  - apply processSleepButton_in_sync, Hm.
  - apply iteration_sync_ignores_sleep, Hm.
Qed.

Lemma C1_modes_mutually_exclusive_witness :
  exactly_one_mode (fst (Console.run [buttons LOW HIGH] initial))
  /\ Console.processSyncButton (buttons HIGH LOW)
       (fst (Console.run [buttons LOW HIGH] initial))
     = (tt, fst (Console.run [buttons LOW HIGH] initial), []).
Proof.
  pose proof (C1_modes_mutually_exclusive [buttons LOW HIGH]
                (fst (Console.run [buttons LOW HIGH] initial))
                (snd (Console.run [buttons LOW HIGH] initial))
                eq_refl) as [H1 [_ [H3 _]]].
  split; [exact H1|].
  exact (proj1 (H3 eq_refl (buttons HIGH LOW) LOW)).
Defined.

(** ** Frames *)

Lemma summariseSleepData_keeps {C : Type} (f : state -> C) :
  keeps f Console.summariseSleepData.
Proof. intros e s. reflexivity. Qed.

Lemma processSyncButton_keeps_levels :
  keeps prev_levels Console.processSyncButton.
Proof. unfold Console.processSyncButton. frame. Qed.

Lemma processSleepButton_keeps_levels :
  keeps prev_levels Console.processSleepButton.
Proof.
  unfold Console.processSleepButton. frame. apply summariseSleepData_keeps.
Qed.

Lemma processSyncButton_keeps_accumulator :
  keeps accumulator Console.processSyncButton.
Proof. unfold Console.processSyncButton. frame. Qed.

Lemma Serial_read_keeps_levels : keeps prev_levels Serial_read.
Proof.
  intros e s. unfold state_after, Serial_read.
  destruct (serialBuf s); reflexivity.
Qed.

Lemma processSleepData_keeps_levels :
  keeps prev_levels Console.processSleepData.
Proof.
  intros e s. unfold state_after. rewrite processSleepData_eq. reflexivity.
Qed.

Lemma loop_keeps_levels : keeps prev_levels Console.loop.
Proof.
  unfold Console.loop, Console.idle, Console.sync, Console.sleep,
    Serial_available, Console.resetDevice.
  frame.
  - apply processSyncButton_keeps_levels.
  - apply processSleepButton_keeps_levels.
  - apply processSyncButton_keeps_levels.
  - apply Serial_read_keeps_levels.
  - intros e s. reflexivity.
  - apply processSleepButton_keeps_levels.
  - apply processSleepData_keeps_levels.
Qed.

Lemma iteration_keeps_levels (e : env) (s : state) :
  prev_levels (fst (Console.iteration e s)) = prev_levels s.
Proof.
  unfold Console.iteration, exec, bind, Console.receive.
  pose proof (loop_keeps_levels e
                (with_serialBuf (serialBuf s ++ serialArrived e) s)) as H.
  unfold state_after in H.
  destruct (Console.loop e _) as [[u s'] t]. exact H.
Qed.

Lemma run_keeps_levels (es : list env) (s : state) :
  prev_levels (fst (Console.run es s)) = prev_levels s.
Proof.
  revert s. induction es as [|e es IH]; intros s; [reflexivity|].
  cbn [Console.run].
  pose proof (iteration_keeps_levels e s) as H1.
  destruct (Console.iteration e s) as [s1 t1]. cbn [fst] in H1.
  specialize (IH s1). destruct (Console.run es s1) as [s2 t2].
  cbn [fst] in IH |- *. now rewrite IH.
Qed.

(** C2. The specification states that after every call of
    processSyncButton that read the button, prevSyncState holds the level
    just read, so that the handler fires only on a change from LOW to HIGH
    (and likewise for the sleep button).  The sketch never assigns
    prevSyncState or prevSleepState: both handlers, in both variants, leave
    them as they were, and along every run of the loop both stay LOW.  From
    the initial state a call that reads HIGH switches the sync mode on and
    leaves prevSyncState at LOW, not at the level read; a second call that
    reads HIGH again, with no change of level in between, fires again and
    switches the mode off.  With the sync button held HIGH over two
    iterations of the loop the console shows the mode enabled and then
    disabled. *)
Theorem C2_previous_level_is_never_stored :
  keeps prev_levels Console.processSyncButton
  /\ keeps prev_levels Console.processSleepButton
  /\ (forall es : list env,
        prev_levels (fst (Console.run es initial)) = (LOW, LOW))
  /\ (let pressed := buttons HIGH LOW in
      let s1 := state_after Console.processSyncButton pressed initial in
      let s2 := state_after Console.processSyncButton pressed s1 in
      trace_of Console.processSyncButton pressed initial = sync_on_trace
      /\ prevSyncState s1 = LOW
      /\ prevSyncState s1 <> HIGH
      /\ mode s1 = MODE_SYNC
      /\ trace_of Console.processSyncButton pressed s1 = sync_off_trace
      /\ mode s2 = MODE_NONE)
  /\ (let pressed := buttons LOW HIGH in
      let s1 := state_after Console.processSleepButton pressed initial in
      let s2 := state_after Console.processSleepButton pressed s1 in
      trace_of Console.processSleepButton pressed initial = sleep_on_trace
      /\ prevSleepState s1 = LOW
      /\ prevSleepState s1 <> HIGH
      /\ mode s1 = MODE_SLEEP
      /\ trace_of Console.processSleepButton pressed s1 = sleep_off_trace s1
      /\ mode s2 = MODE_NONE)
  /\ console (snd (Console.run [buttons HIGH LOW; buttons HIGH LOW] initial))
     = ["<log message='LOG: Sync button was pressed, sync mode enabled'/>";
        "<log message='LOG: Sync button was pressed, sync mode disabled'/>"]
  /\ (let pressed := buttons HIGH LOW in
      let s1 := state_after SDCard.processSyncButton pressed initial in
      prevSyncState s1 = LOW
      /\ mode s1 = MODE_SYNC
      /\ mode (state_after SDCard.processSyncButton pressed s1) = MODE_NONE).
Proof.
  split; [apply processSyncButton_keeps_levels|].
  split; [apply processSleepButton_keeps_levels|].
  split; [intros es; apply run_keeps_levels|].
  repeat split; try reflexivity; discriminate.
Qed.

(** ** A sleep session *)

Lemma int16_add_l (a b : Z) : int16 (int16 a + b) = int16 (a + b).
Proof.
  unfold int16, wrap.
  change (2 ^ (16 - 1)) with 32768. change (2 ^ 16) with 65536.
  replace ((a + 32768) mod 65536 - 32768 + b + 32768)
    with ((a + 32768) mod 65536 + b) by lia.
  replace (a + b + 32768) with ((a + 32768) + b) by lia.
  rewrite Z.add_mod_idemp_l by lia. reflexivity.
Qed.

Lemma int32_add_l (a b : Z) : int32 (int32 a + b) = int32 (a + b).
Proof.
  unfold int32, wrap.
  change (2 ^ (32 - 1)) with 2147483648. change (2 ^ 32) with 4294967296.
  replace ((a + 2147483648) mod 4294967296 - 2147483648 + b + 2147483648)
    with ((a + 2147483648) mod 4294967296 + b) by lia.
  replace (a + b + 2147483648) with ((a + 2147483648) + b) by lia.
  rewrite Z.add_mod_idemp_l by lia. reflexivity.
Qed.

Lemma total_app (l1 l2 : list Z) : total (l1 ++ l2) = total l1 + total l2.
Proof.
  unfold total. induction l1 as [|x l1 IH]; cbn [app fold_right]; lia.
Qed.

Lemma steps_bounds (es : list env) :
  0 <= total (steps es) <= 327 * Z.of_nat (List.length es).
Proof.
  unfold total, steps in *.
  induction es as [|e es IH]; [cbn; lia|].
  cbn [map fold_right List.length].
  pose proof (step_of_range (sensorX e) (sensorY e)
                (int16_range _) (int16_range _)).
  rewrite Nat2Z.inj_succ. lia.
Qed.

(** An iteration in the sleep mode with the button LOW takes one sample. *)
Lemma iteration_sample (e : env) (s : state) :
  mode s = MODE_SLEEP -> pinSleep e = LOW ->
  Console.iteration e s
  = (sampled e (arrived e s),
     DigitalRead PIN_BUTTON_SLEEP LOW :: sample_trace e (arrived e s)).
Proof.
  intros Hm Hp. rewrite iteration_sleep by exact Hm.
  unfold exec, Console.sleep, bind.
  assert (Hm' : mode (arrived e s) = MODE_SLEEP) by exact Hm.
  destruct (processSleepButton_cases e (arrived e s))
    as [[E H]|[[E H]|[[E H]|[E H]]]];
    try (exfalso; clear E;
         unfold MODE_NONE, MODE_SLEEP, LOW, HIGH in *; lia).
  rewrite E, processSleepData_eq, Hp. reflexivity.
Qed.

Lemma int32_range (z : Z) : is_int32 (int32 z).
Proof.
  unfold is_int32, int32, wrap.
  change (2 ^ (32 - 1)) with 2147483648. change (2 ^ 32) with 4294967296.
  pose proof (Z.mod_pos_bound (z + 2147483648) 4294967296). lia.
Qed.

(** A session of any length: the count and the total are the number of
    samples and the sum of the steps on 16 and 32 bits. *)
Lemma run_session (es : list env) :
  forall s,
    mode s = MODE_SLEEP -> quiet es ->
    is_int16 (AcCount s) -> is_int32 (AcTotal s) ->
    mode (fst (Console.run es s)) = MODE_SLEEP
    /\ AcCount (fst (Console.run es s))
       = int16 (AcCount s + Z.of_nat (List.length es))
    /\ AcTotal (fst (Console.run es s))
       = int32 (AcTotal s + total (steps es))
    /\ activity_levels (snd (Console.run es s)) = steps es.
Proof.
  induction es as [|e es IH]; intros s Hm Hq Hc Ht.
  - cbn [Console.run fst snd List.length steps map total fold_right Z.of_nat].
    rewrite !Z.add_0_r, int16_id, int32_id by assumption. auto.
  - inversion Hq as [|e' es' He Hes]; subst.
    cbn [Console.run]. rewrite (iteration_sample e s Hm He).
    specialize (IH (sampled e (arrived e s)) Hm Hes
                  (int16_range _) (int32_range _)).
    destruct (Console.run es (sampled e (arrived e s))) as [s2 t2].
    cbn [fst snd] in IH |- *. destruct IH as (IHm & IHc & IHt & IHl).
    split; [exact IHm|]. split; [|split].
    + rewrite IHc. cbn [sampled AcCount arrived with_serialBuf].
      rewrite int16_add_l. f_equal. cbn [List.length].
      rewrite Nat2Z.inj_succ. lia.
    + rewrite IHt. cbn [sampled AcTotal arrived with_serialBuf].
      rewrite int32_add_l, sample_step_eq. f_equal.
      unfold total, steps. cbn [map fold_right]. lia.
    + change (DigitalRead PIN_BUTTON_SLEEP LOW :: sample_trace e (arrived e s))
        with ([DigitalRead PIN_BUTTON_SLEEP LOW] ++ sample_trace e (arrived e s)).
      rewrite !activity_levels_app, sample_trace_levels, IHl, sample_step_eq.
      reflexivity.
Qed.

Lemma run_app (es1 es2 : list env) (s : state) :
  Console.run (es1 ++ es2) s
  = (fst (Console.run es2 (fst (Console.run es1 s))),
     snd (Console.run es1 s) ++ snd (Console.run es2 (fst (Console.run es1 s)))).
Proof.
  revert s. induction es1 as [|e es1 IH]; intros s.
  - cbn [app Console.run fst snd]. now destruct (Console.run es2 s).
  - cbn [app Console.run]. destruct (Console.iteration e s) as [s1 t1].
    rewrite IH. destruct (Console.run es1 s1) as [s2 t2]. cbn [fst snd].
    now rewrite app_assoc.
Qed.

Lemma quiet_app (es1 es2 : list env) :
  quiet (es1 ++ es2) -> quiet es1 /\ quiet es2.
Proof. unfold quiet. apply Forall_app. Qed.

(** A session short enough for the 16-bit count: no wrap-around. *)
Lemma run_short_session (es : list env) (s : state) :
  mode s = MODE_SLEEP -> AcCount s = 0 -> AcTotal s = 0 -> quiet es ->
  Z.of_nat (List.length es) <= INT_MAX ->
  mode (fst (Console.run es s)) = MODE_SLEEP
  /\ AcCount (fst (Console.run es s)) = Z.of_nat (List.length es)
  /\ AcTotal (fst (Console.run es s)) = total (steps es)
  /\ activity_levels (snd (Console.run es s)) = steps es.
Proof.
  intros Hm Hc Ht Hq Hlen. unfold INT_MAX in Hlen.
  destruct (run_session es s Hm Hq) as (Rm & Rc & Rt & Rl).
  - rewrite Hc. unfold is_int16, INT_MIN, INT_MAX. lia.
  - rewrite Ht. unfold is_int32. lia.
  - pose proof (steps_bounds es) as Hb.
    rewrite Rc, Rt, Hc, Ht, !Z.add_0_l.
    rewrite int16_id by (unfold is_int16, INT_MIN, INT_MAX; lia).
    rewrite int32_id by lia. auto.
Qed.

(** C3 (amended). In a sleep session of N iterations, N at most 32767 (the
    count is a 16-bit int), each sample adds the step (|X/100| + |Y/100|)/2
    of its X and Y words, by truncating division: AcCount is N and AcTotal
    is the sum of the steps, both non-negative, and neither decreases along
    the session; the activity LED is driven with the steps.  The samples
    (200,100), (300,100), (100,100) give the steps 1, 2, 1 and the summary
    SLEEP: duration=3, activity=4, which the log shows when the session
    ends. *)
Theorem C3_session_accumulates :
  (forall (es : list env) (s : state),
      mode s = MODE_SLEEP -> AcCount s = 0 -> AcTotal s = 0 ->
      quiet es -> Z.of_nat (List.length es) <= INT_MAX ->
      let s' := fst (Console.run es s) in
      mode s' = MODE_SLEEP
      /\ AcCount s' = Z.of_nat (List.length es)
      /\ AcTotal s' = total (steps es)
      /\ activity_levels (snd (Console.run es s)) = steps es
      /\ 0 <= AcCount s' /\ 0 <= AcTotal s'
      /\ (forall es1 es2, es = es1 ++ es2 ->
            0 <= AcCount (fst (Console.run es1 s)) <= AcCount s'
            /\ 0 <= AcTotal (fst (Console.run es1 s)) <= AcTotal s'))
  /\ (let session := [reading 200 100; reading 300 100; reading 100 100] in
      let entered := fst (Console.iteration (buttons LOW HIGH) initial) in
      let s := fst (Console.run session entered) in
      mode entered = MODE_SLEEP
      /\ steps session = [1; 2; 1]
      /\ activity_levels (snd (Console.run session entered)) = [1; 2; 1]
      /\ AcCount s = 3 /\ AcTotal s = 4
      /\ summary s = "SLEEP: duration=3, activity=4"
      /\ console (trace_of Console.processSleepButton (buttons LOW HIGH) s)
         = ["<log message='LOG: Sleep button was pressed, sleep mode disabled'/>";
            "<log message='SLEEP: duration=3, activity=4'/>"]).
Proof.
  split.
  - intros es s Hm Hc Ht Hq Hlen s'. subst s'.
    destruct (run_short_session es s Hm Hc Ht Hq Hlen) as (Rm & Rc & Rt & Rl).
    pose proof (steps_bounds es) as Hb.
    repeat (split; [first [assumption | lia]|]).
    intros es1 es2 ->.
    destruct (quiet_app _ _ Hq) as [Hq1 _].
    rewrite length_app, Nat2Z.inj_add in Hlen.
    destruct (run_short_session es1 s Hm Hc Ht Hq1 ltac:(lia))
      as (_ & Rc1 & Rt1 & _).
    pose proof (steps_bounds es1) as Hb1. pose proof (steps_bounds es2) as Hb2.
    rewrite Rc, Rt, Rc1, Rt1. unfold steps. rewrite map_app, total_app.
    fold (steps es1). fold (steps es2). rewrite length_app, Nat2Z.inj_add. lia.
  - vm_compute. repeat split; reflexivity.
Qed.

Lemma C3_session_accumulates_witness :
  let session := [reading 200 100; reading 300 100; reading 100 100] in
  let s' := fst (Console.run session (sleep_entered initial)) in
  AcCount s' = 3 /\ AcTotal s' = total (steps session).
Proof.
  intros session s'.
  destruct (proj1 C3_session_accumulates session (sleep_entered initial))
    as (_ & Hc & Ht & _).
  - reflexivity.
  - reflexivity.
  - reflexivity.
  - repeat constructor.
  - cbn. unfold INT_MAX. lia.
  - split; [exact Hc | exact Ht].
Defined.

(** C3 without the bound on the length of the session: after 32768
    samples in the sleep mode the 16-bit count has wrapped to -32768, which
    is neither the number of samples nor non-negative. *)
Lemma C3_counterexample :
  let es := repeat (reading 0 0) (Z.to_nat 32768) in
  let s := fst (Console.iteration (buttons LOW HIGH) initial) in
  mode s = MODE_SLEEP /\ AcCount s = 0 /\ AcTotal s = 0 /\ quiet es
  /\ mode (fst (Console.run es s)) = MODE_SLEEP
  /\ AcCount (fst (Console.run es s)) = -32768
  /\ AcCount (fst (Console.run es s)) <> Z.of_nat (List.length es)
  /\ ~ 0 <= AcCount (fst (Console.run es s)).
Proof.
  intros es s.
  change s with (sleep_entered initial).
  assert (Hq : quiet es).
  { apply Forall_forall. intros e He. apply repeat_spec in He. now subst e. }
  assert (Hlen : Z.of_nat (List.length es) = 32768).
  { unfold es. rewrite repeat_length. apply Z2Nat.id. lia. }
  destruct (run_session es (sleep_entered initial)) as (Rm & Rc & _).
  - reflexivity.
  - exact Hq.
  - cbn. unfold is_int16, INT_MIN, INT_MAX. lia.
  - cbn. unfold is_int32. lia.
  - assert (Hn : AcCount (fst (Console.run es (sleep_entered initial))) = -32768).
    { rewrite Rc, Hlen. reflexivity. }
    split; [reflexivity|]. split; [reflexivity|]. split; [reflexivity|].
    split; [exact Hq|]. split; [exact Rm|]. split; [exact Hn|].
    rewrite Hn, Hlen. lia.
Qed.

(** C10. For every pair of signed 16-bit words X and Y the normalisation of
    the sketch computes (|X/100| + |Y/100|)/2 with no wrap-around, the
    minimum -32768 included (it is divided before it is negated), and the
    result lies between 0 and 327.  Whatever the bus delivers, the value
    that processSleepData stores in AcStep and writes to the activity LED
    lies between 0 and 327. *)
Theorem C10_step_between_0_and_327 :
  (forall x y : Z,
      is_int16 x -> is_int16 y ->
      Console.normalise x y = step_of x y
      /\ 0 <= Console.normalise x y <= 327)
  /\ Console.normalise INT_MIN INT_MIN = 327
  /\ (forall (e : env) (s : state),
        activity_levels (trace_of Console.processSleepData e s)
        = [AcStep (state_after Console.processSleepData e s)]
        /\ AcStep (state_after Console.processSleepData e s)
           = step_of (sensorX e) (sensorY e)
        /\ is_int16 (sensorX e) /\ is_int16 (sensorY e)
        /\ 0 <= AcStep (state_after Console.processSleepData e s) <= 327).
Proof.
  split; [|split].
  - intros x y Hx Hy. rewrite normalise_step_of by assumption.
    split; [reflexivity | now apply step_of_range].
  - reflexivity.
  - intros e s. unfold trace_of, state_after.
    rewrite processSleepData_eq. cbn [fst snd sampled AcStep].
    rewrite sample_trace_levels.
    split; [reflexivity|]. split; [apply sample_step_eq|].
    split; [apply int16_range|]. split; [apply int16_range|].
    apply sample_step_range.
Qed.

Lemma C10_step_between_0_and_327_witness :
  Console.normalise (-32768) 32767 = step_of (-32768) 32767
  /\ 0 <= Console.normalise (-32768) 32767 <= 327.
Proof.
  apply (proj1 C10_step_between_0_and_327 (-32768) 32767);
    unfold is_int16, INT_MIN, INT_MAX; lia.
Defined.

(** ** Entering and leaving the sleep mode *)

Lemma processSleepButton_leaving (e : env) (s : state) :
  mode s = MODE_SLEEP -> prevSleepState s = LOW -> pinSleep e = HIGH ->
  Console.processSleepButton e s
  = (tt, assign Vmode MODE_NONE s, sleep_off_trace s).
Proof.
  intros Hm Hp Hl.
  destruct (processSleepButton_cases e s) as [[E H]|[[E H]|[[E H]|[E H]]]];
    try (exfalso; clear E;
         unfold MODE_NONE, MODE_SLEEP, LOW, HIGH in *; lia).
  exact E.
Qed.

Lemma processSleepButton_entering (e : env) (s : state) :
  mode s = MODE_NONE -> prevSleepState s = LOW -> pinSleep e = HIGH ->
  Console.processSleepButton e s = (tt, sleep_entered s, sleep_on_trace).
Proof.
  intros Hm Hp Hl.
  destruct (processSleepButton_cases e s) as [[E H]|[[E H]|[[E H]|[E H]]]];
    try (exfalso; clear E;
         unfold MODE_NONE, MODE_SLEEP, LOW, HIGH in *; lia).
  exact E.
Qed.

(** C4. When the sleep button handler accepts a rising edge (stored level
    LOW, level read HIGH) in the sleep mode, it does, in this order: set
    the mode to MODE_NONE, switch the sleep LED off, write 0 to the activity
    LED, log the line saying that the sleep mode is disabled, log the
    summary of the session, and wait.  The console receives exactly these
    two lines, in this order, during the handler and during the whole
    iteration of the loop. *)
Theorem C4_leaving_sleep_sequence :
  forall (e : env) (s : state),
    mode s = MODE_SLEEP -> prevSleepState s = LOW -> pinSleep e = HIGH ->
    Console.processSleepButton e s
    = (tt, assign Vmode MODE_NONE s,
       [DigitalRead PIN_BUTTON_SLEEP HIGH;
        Store Vmode MODE_NONE;
        DigitalWrite PIN_LED_SLEEP LOW;
        AnalogWrite PIN_LED_ACTIVE 0;
        Println "<log message='LOG: Sleep button was pressed, sleep mode disabled'/>";
        Println ("<log message='" ++ (summary s ++ "'/>"))%string;
        Delay REST])
    /\ console (trace_of Console.processSleepButton e s)
       = ["<log message='LOG: Sleep button was pressed, sleep mode disabled'/>";
          ("<log message='" ++ (summary s ++ "'/>"))%string]
    /\ console (snd (Console.iteration e s))
       = ["<log message='LOG: Sleep button was pressed, sleep mode disabled'/>";
          ("<log message='" ++ (summary s ++ "'/>"))%string].
Proof.
  intros e s Hm Hp Hl.
  pose proof (processSleepButton_leaving e s Hm Hp Hl) as E.
  split; [exact E|]. split.
  - unfold trace_of. rewrite E. reflexivity.
  - rewrite iteration_sleep by exact Hm.
    unfold exec, Console.sleep, bind.
    rewrite (processSleepButton_leaving e (arrived e s) Hm Hp Hl).
    rewrite processSleepData_eq. cbn [snd].
    rewrite console_app, sample_trace_console. reflexivity.
Qed.

Lemma C4_leaving_sleep_sequence_witness :
  console (snd (Console.iteration (buttons LOW HIGH) (sleep_entered initial)))
  = ["<log message='LOG: Sleep button was pressed, sleep mode disabled'/>";
     "<log message='SLEEP: duration=0, activity=0'/>"].
Proof.
  exact (proj2 (proj2 (C4_leaving_sleep_sequence (buttons LOW HIGH)
                         (sleep_entered initial) eq_refl eq_refl eq_refl))).
Defined.

(** An iteration that starts idle and ends in the sleep mode has zeroed the
    accumulator and taken no sample. *)
Lemma iteration_enters_zeroed (e : env) (s : state) :
  mode s = MODE_NONE ->
  mode (fst (Console.iteration e s)) = MODE_SLEEP ->
  fst (Console.iteration e s) = sleep_entered (arrived e s)
  /\ activity_levels (snd (Console.iteration e s)) = [].
Proof.
  intros Hm. rewrite iteration_idle by exact Hm.
  unfold exec, Console.idle, bind.
  assert (Hm' : mode (arrived e s) = MODE_NONE) by exact Hm.
  destruct (processSyncButton_cases e (arrived e s))
    as [[E H]|[[E H]|[[E H]|[E H]]]];
    try (exfalso; clear E;
         unfold MODE_NONE, MODE_SYNC, MODE_SLEEP, LOW, HIGH in *; lia);
    rewrite E; clear E.
  - destruct (processSleepButton_cases e (arrived e s))
      as [[E' H']|[[E' H']|[[E' H']|[E' H']]]];
      try (exfalso; clear E';
           unfold MODE_NONE, MODE_SYNC, MODE_SLEEP, LOW, HIGH in *; lia);
      rewrite E'; clear E'; cbn [fst snd].
    + intros Hs. exfalso. rewrite Hm' in Hs. discriminate.
    + intros _. split; reflexivity.
  - rewrite processSleepButton_in_sync by reflexivity. cbn [fst snd].
    intros Hs. exfalso. discriminate.
Qed.

(** C5. When the sleep button handler accepts a rising edge (stored level
    LOW, level read HIGH) while idle, it sets the mode to MODE_SLEEP, then
    zeroes AcStep, AcCount and AcTotal, and only then switches the sleep LED
    on and logs the line; it takes no sample.  Any iteration of the loop
    that starts idle and ends in the sleep mode leaves the three fields at
    zero and has taken no sample, so that the first sample of the session
    starts from zero. *)
Theorem C5_entering_sleep_zeroes_accumulator :
  forall (e : env) (s : state),
    mode s = MODE_NONE -> prevSleepState s = LOW -> pinSleep e = HIGH ->
    Console.processSleepButton e s
    = (tt, sleep_entered s,
       [DigitalRead PIN_BUTTON_SLEEP HIGH;
        Store Vmode MODE_SLEEP;
        Store VAcStep 0; Store VAcCount 0; Store VAcTotal 0;
        DigitalWrite PIN_LED_SLEEP HIGH;
        Println "<log message='LOG: Sleep button was pressed, sleep mode enabled'/>";
        Delay REST])
    /\ mode (sleep_entered s) = MODE_SLEEP
    /\ AcStep (sleep_entered s) = 0
    /\ AcCount (sleep_entered s) = 0
    /\ AcTotal (sleep_entered s) = 0
    /\ (mode (fst (Console.iteration e s)) = MODE_SLEEP ->
        AcStep (fst (Console.iteration e s)) = 0
        /\ AcCount (fst (Console.iteration e s)) = 0
        /\ AcTotal (fst (Console.iteration e s)) = 0
        /\ activity_levels (snd (Console.iteration e s)) = []).
Proof.
  intros e s Hm Hp Hl.
  split; [exact (processSleepButton_entering e s Hm Hp Hl)|].
  do 4 (split; [reflexivity|]).
  intros Hs. destruct (iteration_enters_zeroed e s Hm Hs) as [-> ->].
  repeat split; reflexivity.
Qed.

Lemma C5_entering_sleep_zeroes_accumulator_witness :
  Console.processSleepButton (buttons LOW HIGH)
    (mkState MODE_NONE LOW LOW 1 3 4 [] [])
  = (tt, mkState MODE_SLEEP LOW LOW 0 0 0 [] [], sleep_on_trace).
Proof.
  exact (proj1 (C5_entering_sleep_zeroes_accumulator (buttons LOW HIGH)
                  (mkState MODE_NONE LOW LOW 1 3 4 [] [])
                  eq_refl eq_refl eq_refl)).
Defined.

(** ** The commands of the sync mode *)

Lemma processSyncButton_serialBuf (e : env) (s : state) :
  serialBuf (state_after Console.processSyncButton e s) = serialBuf s
  /\ summary (state_after Console.processSyncButton e s) = summary s
  /\ accumulator (state_after Console.processSyncButton e s) = accumulator s.
Proof.
  unfold state_after.
  destruct (processSyncButton_cases e s) as [[E H]|[[E H]|[[E H]|[E H]]]];
    rewrite E; repeat split; reflexivity.
Qed.

(** A program without a result is its final state and its trace. *)
Lemma prog_unit_eta (c : prog unit) (e : env) (s : state) :
  c e s = (tt, state_after c e s, trace_of c e s).
Proof.
  unfold state_after, trace_of. now destruct (c e s) as [[[] s1] t1].
Qed.

(** [sync] is the button handler followed by the command dispatch on the
    state the handler leaves. *)
Lemma sync_split (e : env) (s s2 : state) (t2 : trace) :
  serial_part e (state_after Console.processSyncButton e s) = (tt, s2, t2) ->
  Console.sync e s = (tt, s2, trace_of Console.processSyncButton e s ++ t2).
Proof.
  intros H. rewrite sync_unfold. unfold bind.
  rewrite (prog_unit_eta Console.processSyncButton e s), H. reflexivity.
Qed.

(** C6. In the sync mode, when the byte waiting on the console is D, sync
    polls its button and then prints the note that the command was
    received, the note that the data is sent, the line <cmd name='data'>,
    the summary of the accumulator, and the line </cmd>, in this order, for
    every accumulator.  With AcCount = 0 and AcTotal = 0 the summary line is
    SLEEP: duration=0, activity=0. *)
Theorem C6_data_command :
  forall (e : env) (s : state) (rest : list Z),
    mode s = MODE_SYNC -> serialBuf s = CHAR_D :: rest ->
    Console.sync e s
    = (tt,
       with_serialBuf rest (state_after Console.processSyncButton e s),
       trace_of Console.processSyncButton e s
       ++ [SerialRead CHAR_D;
           Println "<log message='Received: Read data'>";
           Println "<log message='Sending sleep data'/>";
           Println "<cmd name='data'>";
           Println (summary s);
           Println "</cmd>"])
    /\ summary s
       = ((("SLEEP: duration=" ++ string_of_Z (AcCount s))
            ++ ", activity=") ++ string_of_Z (AcTotal s))%string
    /\ (AcCount s = 0 -> AcTotal s = 0 ->
        summary s = "SLEEP: duration=0, activity=0").
Proof.
  intros e s rest Hm Hb.
  destruct (processSyncButton_serialBuf e s) as (Eb & Es & _).
  split; [|split].
  - apply sync_split.
    rewrite (serial_part_D e _ rest) by (rewrite Eb; exact Hb).
    unfold data_response. rewrite Es. reflexivity.
  - reflexivity.
  - intros Hc Ht. unfold summary. rewrite Hc, Ht. reflexivity.
Qed.

Lemma C6_data_command_witness :
  console (trace_of Console.sync (buttons LOW LOW)
             (mkState MODE_SYNC LOW LOW 0 0 0 [] [CHAR_D]))
  = ["<log message='Received: Read data'>";
     "<log message='Sending sleep data'/>";
     "<cmd name='data'>";
     "SLEEP: duration=0, activity=0";
     "</cmd>"].
Proof.
  unfold trace_of.
  rewrite (proj1 (C6_data_command (buttons LOW LOW)
                    (mkState MODE_SYNC LOW LOW 0 0 0 [] [CHAR_D]) []
                    eq_refl eq_refl)).
  reflexivity.
Defined.

Lemma processSyncButton_idle_poll (e : env) (s : state) :
  mode s = MODE_SYNC -> pinSync e <> HIGH ->
  Console.processSyncButton e s
  = (tt, s, [DigitalRead PIN_BUTTON_SYNC (pinSync e)]).
Proof.
  intros Hm Hl.
  destruct (processSyncButton_cases e s) as [[E H]|[[E H]|[[E H]|[E H]]]];
    try (exfalso; clear E;
         unfold MODE_NONE, MODE_SYNC, LOW, HIGH in *; lia).
  exact E.
Qed.

(** C8. In the sync mode, when the byte waiting on the console is neither D
    nor R, sync does what polling its button does and then only takes the
    byte from the receive buffer: the command dispatch prints nothing,
    logs nothing and assigns no variable.  When the button does not fire,
    the whole call prints nothing and leaves the mode, the stored button
    levels and the accumulator as they were. *)
Theorem C8_other_bytes_are_ignored :
  forall (e : env) (s : state) (c : Z) (rest : list Z),
    mode s = MODE_SYNC -> serialBuf s = c :: rest ->
    c <> CHAR_D -> c <> CHAR_R ->
    Console.sync e s
    = (tt,
       with_serialBuf rest (state_after Console.processSyncButton e s),
       trace_of Console.processSyncButton e s ++ [SerialRead c])
    /\ fields (state_after Console.sync e s)
       = fields (state_after Console.processSyncButton e s)
    /\ (pinSync e <> HIGH ->
        trace_of Console.sync e s
        = [DigitalRead PIN_BUTTON_SYNC (pinSync e); SerialRead c]
        /\ console (trace_of Console.sync e s) = []
        /\ stores (trace_of Console.sync e s) = []
        /\ fields (state_after Console.sync e s) = fields s).
Proof.
  intros e s c rest Hm Hb HD HR.
  destruct (processSyncButton_serialBuf e s) as (Eb & _ & _).
  assert (E : Console.sync e s
              = (tt,
                 with_serialBuf rest
                   (state_after Console.processSyncButton e s),
                 trace_of Console.processSyncButton e s ++ [SerialRead c])).
  { apply sync_split.
    apply (serial_part_other e _ c rest); [rewrite Eb; exact Hb | exact HD | exact HR]. }
  split; [exact E|]. split.
  - unfold state_after at 1. rewrite E. reflexivity.
  - intros Hl. unfold state_after, trace_of. rewrite E. cbn [fst snd].
    unfold state_after, trace_of.
    rewrite (processSyncButton_idle_poll e s Hm Hl). cbn [fst snd app].
    repeat split; reflexivity.
Qed.

Lemma C8_other_bytes_are_ignored_witness :
  Console.sync (buttons LOW LOW) (mkState MODE_SYNC LOW LOW 1 3 4 [] [88])
  = (tt, mkState MODE_SYNC LOW LOW 1 3 4 [] [],
     [DigitalRead PIN_BUTTON_SYNC LOW; SerialRead 88]).
Proof.
  exact (proj1 (C8_other_bytes_are_ignored (buttons LOW LOW)
                  (mkState MODE_SYNC LOW LOW 1 3 4 [] [88]) 88 []
                  eq_refl eq_refl
                  ltac:(unfold CHAR_D; lia) ltac:(unfold CHAR_R; lia))).
Defined.

(** The sleep button handler does not clear AcCount and AcTotal when it
    leaves the sleep mode, and neither processSyncButton nor sendData nor
    the handling of the command D modifies them; the summary that the
    command D prints is the one of the values AcCount and AcTotal hold when
    the command is handled. *)
Lemma accumulator_kept_by_handlers :
  (forall (e : env) (s : state),
      mode s = MODE_SLEEP -> prevSleepState s = LOW -> pinSleep e = HIGH ->
      accumulator (state_after Console.processSleepButton e s) = accumulator s)
  /\ keeps accumulator Console.processSyncButton
  /\ keeps accumulator Console.sendData
  /\ (forall (e : env) (s : state) (rest : list Z),
        serialBuf s = CHAR_D :: rest ->
        accumulator (state_after Console.sync e s) = accumulator s
        /\ console (trace_of Console.sync e s)
           = console (trace_of Console.processSyncButton e s)
             ++ ["<log message='Received: Read data'>";
                 "<log message='Sending sleep data'/>";
                 "<cmd name='data'>";
                 summary s;
                 "</cmd>"]).
Proof.
  split; [|split; [|split]].
  - intros e s Hm Hp Hl. unfold state_after.
    rewrite (processSleepButton_leaving e s Hm Hp Hl). reflexivity.
  - apply processSyncButton_keeps_accumulator.
  - intros e s. reflexivity.
  - intros e s rest Hb.
    destruct (processSyncButton_serialBuf e s) as (Eb & Es & Ea).
    assert (E : Console.sync e s
                = (tt,
                   with_serialBuf rest
                     (state_after Console.processSyncButton e s),
                   trace_of Console.processSyncButton e s
                   ++ SerialRead CHAR_D
                      :: data_response
                           (state_after Console.processSyncButton e s))).
    { apply sync_split. apply serial_part_D. rewrite Eb. exact Hb. }
    split.
    + unfold state_after at 1. rewrite E. cbn [fst snd]. exact Ea.
    + unfold trace_of at 1. rewrite E. cbn [snd].
      rewrite console_app. unfold data_response. rewrite Es. reflexivity.
Qed.

(** A session of three samples ends with the summary duration=3, activity=4
    in the log; sleep() still takes a sample in the iteration that ends the
    session, and the command D, issued in the sync mode right after, reports
    duration=4, activity=5. *)
Lemma report_after_three_samples :
  console
    (snd (Console.run
            [buttons LOW HIGH;
             reading 200 100; reading 300 100; reading 100 100;
             ending;
             buttons HIGH LOW;
             command CHAR_D]
            initial))
  = ["<log message='LOG: Sleep button was pressed, sleep mode enabled'/>";
     "<log message='LOG: Sleep button was pressed, sleep mode disabled'/>";
     "<log message='SLEEP: duration=3, activity=4'/>";
     "<log message='LOG: Sync button was pressed, sync mode enabled'/>";
     "<log message='Received: Read data'>";
     "<log message='Sending sleep data'/>";
     "<cmd name='data'>";
     "SLEEP: duration=4, activity=5";
     "</cmd>"]
  /\ "SLEEP: duration=4, activity=5" <> "SLEEP: duration=3, activity=4".
Proof.
  split; [vm_compute; reflexivity | discriminate].
Qed.

(** ** The reset command *)

Lemma trace_of_bind {A B : Type} (c : prog A) (k : A -> prog B)
      (e : env) (s : state) :
  trace_of (bind c k) e s
  = trace_of c e s
    ++ trace_of (k (fst (fst (c e s)))) e (state_after c e s).
Proof.
  unfold trace_of, state_after, bind.
  destruct (c e s) as [[a s1] t1]. cbn [fst snd].
  destruct (k a e s1) as [[b s2] t2]. reflexivity.
Qed.

Section Emits.
Context {A B : Type}.
Variable Q : event -> Prop.

Lemma emits_only_bind (c : prog A) (k : A -> prog B) :
  emits_only Q c -> (forall a, emits_only Q (k a)) ->
  emits_only Q (bind c k).
Proof.
  intros Hc Hk e s. rewrite trace_of_bind. apply Forall_app. split.
  - apply Hc.
  - apply Hk.
Qed.

Lemma emits_only_if (b : bool) (c1 c2 : prog A) :
  emits_only Q c1 -> emits_only Q c2 ->
  emits_only Q (if b then c1 else c2).
Proof. destruct b; auto. Qed.

Lemma emits_only_ret (a : A) : emits_only Q (ret a).
Proof. intros e s. constructor. Qed.

Lemma emits_only_get (f : state -> A) : emits_only Q (get f).
Proof. intros e s. constructor. Qed.
End Emits.

Lemma emits_only_emit (Q : event -> Prop) (ev : event) :
  Q ev -> emits_only Q (emit ev).
Proof. intros H e s. repeat constructor. exact H. Qed.

Lemma emits_only_store (Q : event -> Prop) (x : var) (v : Z) :
  Q (Store x v) -> emits_only Q (store x v).
Proof. intros H e s. repeat constructor. exact H. Qed.

Lemma emits_only_digitalRead (Q : event -> Prop) (pin : Z) :
  (forall v, Q (DigitalRead pin v)) -> emits_only Q (digitalRead pin).
Proof. intros H e s. repeat constructor. apply H. Qed.

Lemma emits_only_SD_open_write (Q : event -> Prop) (name : string) :
  (forall ok, Q (SdOpen name true ok)) ->
  emits_only Q (SDCard.SD_open_write name).
Proof. intros H e s. repeat constructor. apply H. Qed.

Ltac emits_step :=
  match goal with
  | |- emits_only _ (bind _ _) => apply emits_only_bind; [|intros ?]
  | |- emits_only _ (if _ then _ else _) => apply emits_only_if
  | |- emits_only _ (ret _) => apply emits_only_ret
  | |- emits_only _ (get _) => apply emits_only_get
  | |- emits_only _ (emit _) => apply emits_only_emit
  | |- emits_only _ (digitalWrite _ _) => apply emits_only_emit
  | |- emits_only _ (delay _) => apply emits_only_emit
  | |- emits_only _ (Serial_println _) => apply emits_only_emit
  | |- emits_only _ (store _ _) => apply emits_only_store
  | |- emits_only _ (digitalRead _) => apply emits_only_digitalRead; intros ?
  | |- emits_only _ (SDCard.SD_open_write _) =>
      apply emits_only_SD_open_write; intros ?
  end.

Lemma SD_processSyncButton_no_delete_error :
  emits_only not_delete_error SDCard.processSyncButton.
Proof.
  unfold SDCard.processSyncButton, SDCard.logData.
  repeat emits_step; unfold not_delete_error, delete_error; discriminate.
Qed.

Lemma SD_processSyncButton_serialBuf :
  keeps serialBuf SDCard.processSyncButton.
Proof.
  unfold SDCard.processSyncButton, SDCard.logData. frame.
  all: intros ? ?; reflexivity.
Qed.

Lemma console_In (l : string) (t : trace) :
  In l (console t) <-> In (Println l) t.
Proof.
  induction t as [|ev t IH]; [reflexivity|].
  destruct ev; cbn [console In]; rewrite IH; try (intuition discriminate).
  split; intros [H|H]; auto; left; congruence.
Qed.

Lemma SD_serial_part_R (e : env) (s : state) (rest : list Z) :
  serialBuf s = CHAR_R :: rest ->
  SD_serial_part e s = (tt, with_serialBuf rest s, reset_trace e).
Proof.
  intros H. destruct_state s. subst sb.
  destruct e as [psy psl wr sa ow ord []]; reflexivity.
Qed.

Lemma SD_sync_split (e : env) (s s2 : state) (t2 : trace) :
  SD_serial_part e (state_after SDCard.processSyncButton e s) = (tt, s2, t2) ->
  SDCard.sync e s = (tt, s2, trace_of SDCard.processSyncButton e s ++ t2).
Proof.
  intros H.
  change SDCard.sync with (SDCard.processSyncButton ;; SD_serial_part).
  unfold bind.
  rewrite (prog_unit_eta SDCard.processSyncButton e s), H. reflexivity.
Qed.

Lemma processSyncButton_no_delete_error (e : env) (s : state) :
  ~ In delete_error (console (trace_of Console.processSyncButton e s)).
Proof.
  unfold trace_of.
  destruct (processSyncButton_cases e s) as [[E H]|[[E H]|[[E H]|[E H]]]];
    rewrite E; cbn; unfold delete_error; intuition discriminate.
Qed.

(** C7. In the sync mode, when the byte waiting on the console is R, the SD
    variant polls its button and then prints the note that the command was
    received and the note of the reset, and removes LOG.TXT; the line that
    reports the failed delete is printed if and only if SD.remove fails.
    The console-only variant prints the note that the command was received;
    its resetDevice is a dummy with no file to delete, and it never prints
    the error line. *)
Theorem C7_reset_command :
  forall (e : env) (s : state) (rest : list Z),
    mode s = MODE_SYNC -> serialBuf s = CHAR_R :: rest ->
    SDCard.sync e s
    = (tt,
       with_serialBuf rest (state_after SDCard.processSyncButton e s),
       trace_of SDCard.processSyncButton e s
       ++ [SerialRead CHAR_R;
           Println "<log message='Received: Reset device'>";
           Println "<log message='Reset SD card data'/>";
           SdRemove LOG_FILE (sdRemove e)]
       ++ (if sdRemove e then []
           else [Println "<log message='Error deleting LOG.TXT...'/>"]))
    /\ (In "<log message='Error deleting LOG.TXT...'/>"
           (console (trace_of SDCard.sync e s))
        <-> sdRemove e = false)
    /\ Console.sync e s
       = (tt,
          with_serialBuf rest (state_after Console.processSyncButton e s),
          trace_of Console.processSyncButton e s
          ++ [SerialRead CHAR_R;
              Println "<log message='Received: Reset device'>"])
    /\ ~ In "<log message='Error deleting LOG.TXT...'/>"
           (console (trace_of Console.sync e s)).
Proof.
  intros e s rest Hm Hb.
  assert (E : SDCard.sync e s
              = (tt,
                 with_serialBuf rest
                   (state_after SDCard.processSyncButton e s),
                 trace_of SDCard.processSyncButton e s ++ reset_trace e)).
  { apply SD_sync_split. apply SD_serial_part_R.
    rewrite SD_processSyncButton_serialBuf. exact Hb. }
  assert (E' : Console.sync e s
               = (tt,
                  with_serialBuf rest
                    (state_after Console.processSyncButton e s),
                  trace_of Console.processSyncButton e s
                  ++ [SerialRead CHAR_R;
                      Println "<log message='Received: Reset device'>"])).
  { apply sync_split. apply serial_part_R.
    rewrite (proj1 (processSyncButton_serialBuf e s)). exact Hb. }
  split; [exact E|]. split; [|split; [exact E'|]].
  - unfold trace_of at 1. rewrite E. cbn [snd].
    rewrite console_app, in_app_iff, !console_In.
    fold delete_error. split.
    + intros [H|H].
      * exfalso.
        pose proof (SD_processSyncButton_no_delete_error e s) as HF.
        rewrite Forall_forall in HF. exact (HF _ H eq_refl).
      * unfold reset_trace in H. destruct (sdRemove e); [|reflexivity].
        exfalso. cbn in H. unfold delete_error in H. intuition discriminate.
    + intros Hr. right. unfold reset_trace. rewrite Hr.
      cbn. auto 10.
  - unfold trace_of at 1. rewrite E'. cbn [snd].
    rewrite console_app, in_app_iff. intros [H|H].
    + exact (processSyncButton_no_delete_error e s H).
    + cbn in H. intuition discriminate.
Qed.

Lemma C7_reset_command_witness :
  console (trace_of SDCard.sync
             (mkEnv LOW LOW [] [] true None false)
             (mkState MODE_SYNC LOW LOW 0 0 0 [] [CHAR_R]))
  = ["<log message='Received: Reset device'>";
     "<log message='Reset SD card data'/>";
     "<log message='Error deleting LOG.TXT...'/>"].
Proof.
  unfold trace_of.
  rewrite (proj1 (C7_reset_command (mkEnv LOW LOW [] [] true None false)
                    (mkState MODE_SYNC LOW LOW 0 0 0 [] [CHAR_R]) []
                    eq_refl eq_refl)).
  reflexivity.
Defined.

(** * Further properties of the sketch *)

(** ** The idle and the sleep iteration *)

(** X1. While idle, a sync button that fires is served first: idle()
    switches the sync mode on and the sleep button is then not even read,
    whatever its level. *)
Theorem X1_idle_serves_sync_button_first :
  forall (e : env) (s : state),
    mode s = MODE_NONE -> prevSyncState s = LOW -> pinSync e = HIGH ->
    Console.idle e s = (tt, assign Vmode MODE_SYNC s, sync_on_trace).
Proof.
  intros e s Hm Hp Hl. unfold Console.idle, bind.
  destruct (processSyncButton_cases e s) as [[E H]|[[E H]|[[E H]|[E H]]]];
    try (exfalso; clear E;
         unfold MODE_NONE, MODE_SYNC, LOW, HIGH in *; lia).
  rewrite E, processSleepButton_in_sync by reflexivity.
  now rewrite app_nil_r.
Qed.

Lemma X1_idle_serves_sync_button_first_witness :
  Console.idle (buttons HIGH HIGH) initial
  = (tt, assign Vmode MODE_SYNC initial, sync_on_trace).
Proof.
  exact (X1_idle_serves_sync_button_first (buttons HIGH HIGH) initial
           eq_refl eq_refl eq_refl).
Defined.

Lemma iteration_ending (e : env) (s : state) :
  mode s = MODE_SLEEP -> prevSleepState s = LOW -> pinSleep e = HIGH ->
  Console.iteration e s
  = (sampled e (assign Vmode MODE_NONE (arrived e s)),
     sleep_off_trace (arrived e s)
     ++ sample_trace e (assign Vmode MODE_NONE (arrived e s))).
Proof.
  intros Hm Hp Hl. rewrite iteration_sleep by exact Hm.
  unfold exec, Console.sleep, bind.
  rewrite (processSleepButton_leaving e (arrived e s) Hm Hp Hl).
  rewrite processSleepData_eq. reflexivity.
Qed.

(** X2. In the iteration in which the sleep button ends a session, sleep()
    still calls processSleepData after the handler: the mode is MODE_NONE
    at the end, but the count has grown by one and the total by the step of
    one more sample after the summary was logged, and the activity LED,
    set to 0 by the handler, is left at that step. *)
Theorem X2_sample_taken_after_session_end :
  forall (e : env) (s : state),
    mode s = MODE_SLEEP -> prevSleepState s = LOW -> pinSleep e = HIGH ->
    mode (fst (Console.iteration e s)) = MODE_NONE
    /\ AcCount (fst (Console.iteration e s)) = int16 (AcCount s + 1)
    /\ AcTotal (fst (Console.iteration e s))
       = int32 (AcTotal s + step_of (sensorX e) (sensorY e))
    /\ activity_levels (snd (Console.iteration e s))
       = [0; step_of (sensorX e) (sensorY e)]
    /\ console (snd (Console.iteration e s))
       = ["<log message='LOG: Sleep button was pressed, sleep mode disabled'/>";
          ("<log message='" ++ (summary s ++ "'/>"))%string].
Proof.
  intros e s Hm Hp Hl. rewrite (iteration_ending e s Hm Hp Hl).
  cbn [fst snd]. rewrite activity_levels_app, console_app.
  rewrite sample_trace_levels, sample_trace_console, <- sample_step_eq.
  repeat split; reflexivity.
Qed.

Lemma X2_sample_taken_after_session_end_witness :
  AcCount (fst (Console.iteration ending
                  (mkState MODE_SLEEP LOW LOW 1 3 4 [] [])))
  = int16 (3 + 1).
Proof.
  exact (proj1 (proj2 (X2_sample_taken_after_session_end ending
                         (mkState MODE_SLEEP LOW LOW 1 3 4 [] [])
                         eq_refl eq_refl eq_refl))).
Defined.

(** ** What the loop does in each mode *)

Lemma loop_idle (e : env) (s : state) :
  mode s = MODE_NONE -> Console.loop e s = Console.idle e s.
Proof.
  intros H. unfold Console.loop, bind, get. rewrite H.
  change (MODE_NONE =? MODE_NONE) with true. cbn iota.
  now destruct (Console.idle e s) as [[[] s'] t'].
Qed.

Lemma loop_sync (e : env) (s : state) :
  mode s = MODE_SYNC -> Console.loop e s = Console.sync e s.
Proof.
  intros H. unfold Console.loop, bind, get. rewrite H.
  change (MODE_SYNC =? MODE_NONE) with false.
  change (MODE_SYNC =? MODE_SYNC) with true. cbn iota.
  now destruct (Console.sync e s) as [[[] s'] t'].
Qed.

Lemma loop_sleep (e : env) (s : state) :
  mode s = MODE_SLEEP -> Console.loop e s = Console.sleep e s.
Proof.
  intros H. unfold Console.loop, bind, get. rewrite H.
  change (MODE_SLEEP =? MODE_NONE) with false.
  change (MODE_SLEEP =? MODE_SYNC) with false.
  change (MODE_SLEEP =? MODE_SLEEP) with true. cbn iota.
  now destruct (Console.sleep e s) as [[[] s'] t'].
Qed.

(** With any other value of [mode] no case of the switch applies. *)
Lemma loop_other (e : env) (s : state) :
  mode s <> MODE_NONE -> mode s <> MODE_SYNC -> mode s <> MODE_SLEEP ->
  Console.loop e s = (tt, s, []).
Proof.
  intros H0 H1 H2. apply Z.eqb_neq in H0, H1, H2.
  unfold Console.loop, bind, get. rewrite H0, H1, H2. reflexivity.
Qed.

Lemma serial_part_cases (e : env) (s : state) :
  (serialBuf s = [] /\ serial_part e s = (tt, s, []))
  \/ (exists c rest,
        serialBuf s = c :: rest
        /\ state_after serial_part e s = with_serialBuf rest s
        /\ (trace_of serial_part e s = SerialRead c :: data_response s
            \/ trace_of serial_part e s
               = [SerialRead c;
                  Println "<log message='Received: Reset device'>"]
            \/ trace_of serial_part e s = [SerialRead c])).
Proof.
  destruct (serialBuf s) as [|c rest] eqn:Eb.
  - left. split; [reflexivity | now apply serial_part_none].
  - right. exists c, rest. split; [reflexivity|].
    unfold state_after, trace_of.
    destruct (Z.eq_dec c CHAR_D) as [->|HD].
    + rewrite (serial_part_D e s rest Eb). split; [reflexivity | now left].
    + destruct (Z.eq_dec c CHAR_R) as [->|HR].
      * rewrite (serial_part_R e s rest Eb).
        split; [reflexivity | right; now left].
      * rewrite (serial_part_other e s c rest Eb HD HR).
        split; [reflexivity | right; now right].
Qed.

Lemma processSyncButton_no_activity (e : env) (s : state) :
  activity_levels (trace_of Console.processSyncButton e s) = [].
Proof.
  unfold trace_of.
  destruct (processSyncButton_cases e s) as [[E H]|[[E H]|[[E H]|[E H]]]];
    rewrite E; reflexivity.
Qed.

Lemma serial_part_no_activity (e : env) (s : state) :
  activity_levels (trace_of serial_part e s) = [].
Proof.
  destruct (serial_part_cases e s) as [[_ E]|(c & rest & _ & _ & [E|[E|E]])].
  - unfold trace_of. rewrite E. reflexivity.
  - rewrite E. reflexivity.
  - rewrite E. reflexivity.
  - rewrite E. reflexivity.
Qed.

Lemma idle_no_activity (e : env) (s : state) :
  mode s = MODE_NONE -> activity_levels (trace_of Console.idle e s) = [].
Proof.
  intros Hm. unfold Console.idle. rewrite trace_of_bind, activity_levels_app.
  rewrite processSyncButton_no_activity. cbn [app].
  unfold trace_of at 1, state_after.
  destruct (processSyncButton_cases e s) as [[E H]|[[E H]|[[E H]|[E H]]]];
    try (exfalso; clear E;
         unfold MODE_NONE, MODE_SYNC, LOW, HIGH in *; lia);
    rewrite E; cbn [fst snd]; clear E.
  - destruct (processSleepButton_cases e s)
      as [[E' H']|[[E' H']|[[E' H']|[E' H']]]];
      try (exfalso; clear E';
           unfold MODE_NONE, MODE_SLEEP, LOW, HIGH in *; lia);
      rewrite E'; reflexivity.
  - rewrite processSleepButton_in_sync by reflexivity. reflexivity.
Qed.

(** X3. Outside the sleep mode the loop never writes to the activity LED:
    an iteration that starts idle or in the sync mode (or with any value of
    mode other than MODE_SLEEP) leaves the level that the last sleep
    iteration wrote. *)
Theorem X3_activity_led_written_only_in_sleep :
  forall (e : env) (s : state),
    mode s <> MODE_SLEEP ->
    activity_levels (trace_of Console.loop e s) = [].
Proof.
  intros e s Hm.
  destruct (Z.eq_dec (mode s) MODE_NONE) as [H0|H0].
  - unfold trace_of at 1. rewrite loop_idle by exact H0.
    now apply idle_no_activity.
  - destruct (Z.eq_dec (mode s) MODE_SYNC) as [H1|H1].
    + unfold trace_of at 1. rewrite loop_sync by exact H1.
      fold (trace_of Console.sync e s).
      rewrite sync_unfold, trace_of_bind, activity_levels_app.
      now rewrite processSyncButton_no_activity, serial_part_no_activity.
    + unfold trace_of. now rewrite loop_other.
Qed.

Lemma X3_activity_led_written_only_in_sleep_witness :
  activity_levels
    (trace_of Console.loop (buttons HIGH HIGH)
       (mkState MODE_SYNC LOW LOW 1 3 4 [] [CHAR_D]))
  = [].
Proof.
  apply X3_activity_led_written_only_in_sleep. cbn. discriminate.
Defined.

Lemma processSleepButton_serialBuf (e : env) (s : state) :
  serialBuf (state_after Console.processSleepButton e s) = serialBuf s.
Proof.
  unfold state_after.
  destruct (processSleepButton_cases e s) as [[E H]|[[E H]|[[E H]|[E H]]]];
    rewrite E; reflexivity.
Qed.

(** X4. The loop takes at most one byte from the serial receive buffer per
    iteration, and only in the sync mode: while idle or in the sleep mode
    the buffer is left as it is (bytes received then are still waiting when
    the sync mode is entered), and in the sync mode exactly the first
    waiting byte is removed, whatever it is. *)
Theorem X4_serial_bytes_consumed_only_in_sync :
  forall (e : env) (s : state),
    (mode s <> MODE_SYNC ->
     serialBuf (state_after Console.loop e s) = serialBuf s)
    /\ (mode s = MODE_SYNC ->
        serialBuf (state_after Console.loop e s) = tl (serialBuf s)).
Proof.
  intros e s. split; intros Hm.
  - destruct (Z.eq_dec (mode s) MODE_NONE) as [H0|H0].
    + unfold state_after at 1. rewrite loop_idle by exact H0.
      fold (state_after Console.idle e s).
      unfold Console.idle. rewrite state_after_bind.
      rewrite processSleepButton_serialBuf.
      apply (proj1 (processSyncButton_serialBuf e s)).
    + destruct (Z.eq_dec (mode s) MODE_SLEEP) as [H2|H2].
      * unfold state_after at 1. rewrite loop_sleep by exact H2.
        fold (state_after Console.sleep e s).
        unfold Console.sleep. rewrite state_after_bind.
        unfold state_after at 1. rewrite processSleepData_eq.
        cbn [fst snd sampled serialBuf].
        apply processSleepButton_serialBuf.
      * unfold state_after. now rewrite loop_other.
  - unfold state_after at 1. rewrite loop_sync by exact Hm.
    fold (state_after Console.sync e s).
    rewrite sync_unfold, state_after_bind.
    pose proof (proj1 (processSyncButton_serialBuf e s)) as Eb.
    destruct (serial_part_cases e (state_after Console.processSyncButton e s))
      as [[Hb E]|(c & rest & Hb & E & _)].
    + unfold state_after at 1. rewrite E. cbn [fst snd].
      rewrite <- Eb, Hb. reflexivity.
    + rewrite E. rewrite <- Eb, Hb. reflexivity.
Qed.

Lemma X4_serial_bytes_consumed_only_in_sync_witness :
  serialBuf (state_after Console.loop (buttons LOW LOW)
               (mkState MODE_SYNC LOW LOW 0 0 0 [] [88; CHAR_D]))
  = [CHAR_D].
Proof.
  exact (proj2 (X4_serial_bytes_consumed_only_in_sync (buttons LOW LOW)
                  (mkState MODE_SYNC LOW LOW 0 0 0 [] [88; CHAR_D]))
           eq_refl).
Defined.

(** ** The words read from the sensor *)

Lemma land_shiftl8_byte (hi lo : Z) :
  0 <= lo < 256 -> Z.land (Z.shiftl hi 8) lo = 0.
Proof.
  intros Hlo. apply Z.bits_inj'. intros n Hn.
  rewrite Z.land_spec, Z.bits_0.
  destruct (Z.lt_ge_cases n 8) as [Hlt|Hge].
  - rewrite Z.shiftl_spec_low by exact Hlt. reflexivity.
  - destruct (Z.eq_dec lo 0) as [->|Hnz].
    + rewrite Z.bits_0. apply andb_false_r.
    + rewrite (Z.bits_above_log2 lo n); [apply andb_false_r | lia |].
      assert (Z.log2 lo < 8) by (apply Z.log2_lt_pow2; lia). lia.
Qed.

Lemma lor_shiftl8_byte (hi lo : Z) :
  0 <= lo < 256 -> Z.lor (Z.shiftl hi 8) lo = 256 * hi + lo.
Proof.
  intros Hlo.
  pose proof (Z.add_lor_land (Z.shiftl hi 8) lo) as H.
  rewrite (land_shiftl8_byte hi lo Hlo) in H.
  rewrite Z.shiftl_mul_pow2 in H |- * by lia.
  change (2 ^ 8) with 256 in H |- *. lia.
Qed.

Lemma byte_high (x : Z) : Z.land (Z.shiftr x 8) 255 = (x / 256) mod 256.
Proof.
  change 255 with (Z.ones 8). rewrite Z.land_ones by lia.
  rewrite Z.shiftr_div_pow2 by lia. reflexivity.
Qed.

Lemma byte_low (x : Z) : Z.land x 255 = x mod 256.
Proof. change 255 with (Z.ones 8). now rewrite Z.land_ones by lia. Qed.

Lemma big_endian_bytes (x : Z) :
  is_int16 x -> big_endian ((x / 256) mod 256) (x mod 256) = x.
Proof.
  unfold is_int16, INT_MIN, INT_MAX, big_endian, int16, wrap. intros H.
  change (2 ^ (16 - 1)) with 32768. change (2 ^ 16) with 65536.
  pose proof (Z.mod_pos_bound x 256).
  pose proof (Z.mod_pos_bound (x / 256) 256).
  pose proof (Z.div_mod x 256 ltac:(lia)).
  assert (Hq : -128 <= x / 256 <= 127) by lia.
  destruct (Z.lt_ge_cases (x / 256) 0) as [Hneg|Hpos].
  - assert (Hm : (x / 256) mod 256 = x / 256 + 256).
    { symmetry. apply (Z.mod_unique (x / 256) 256 (-1)); lia. }
    rewrite Hm.
    replace (256 * (x / 256 + 256) + x mod 256 + 32768)
      with (x + 32768 + 1 * 65536) by lia.
    rewrite Z.mod_add by lia. rewrite Z.mod_small by lia. lia.
  - rewrite (Z.mod_small (x / 256) 256) by lia.
    replace (256 * (x / 256) + x mod 256) with x by lia.
    rewrite Z.mod_small by lia. lia.
Qed.

Lemma word_of_cons (hi lo : Z) (rest : list Z) :
  0 <= lo < 256 -> word_of (hi :: lo :: rest) = big_endian hi lo.
Proof.
  intros Hlo. unfold word_of, big_endian. cbn [nth].
  now rewrite lor_shiftl8_byte.
Qed.

(** X5. Two successive Wire.read() make a signed 16-bit word, high byte
    first: for bytes hi and lo the word is 256*hi + lo, minus 65536 when hi
    is 128 or more.  Every signed 16-bit value X is read back from its two
    bytes, so the sensor can deliver every pair of words. *)
Theorem X5_words_are_big_endian :
  (forall (e : env) (s : state) (hi lo : Z) (rest : list Z),
      0 <= hi < 256 -> 0 <= lo < 256 -> wireBuf s = hi :: lo :: rest ->
      Console.read_word e s
      = (big_endian hi lo, with_wireBuf rest s, [WireRead hi; WireRead lo])
      /\ big_endian hi lo
         = (if hi <? 128 then 256 * hi + lo else 256 * hi + lo - 65536))
  /\ (forall x y : Z,
        is_int16 x -> is_int16 y ->
        sensorX (reading x y) = x /\ sensorY (reading x y) = y).
Proof.
  split.
  - intros e s hi lo rest Hhi Hlo Hb. split.
    + rewrite read_word_eq, Hb, word_of_cons by exact Hlo. reflexivity.
    + unfold big_endian, int16, wrap.
      change (2 ^ (16 - 1)) with 32768. change (2 ^ 16) with 65536.
      destruct (Z.ltb_spec hi 128).
      * rewrite Z.mod_small by lia. lia.
      * replace (256 * hi + lo + 32768)
          with (256 * hi + lo - 32768 + 1 * 65536) by lia.
        rewrite Z.mod_add by lia. rewrite Z.mod_small by lia. lia.
  - intros x y Hx Hy. unfold sensorX, sensorY, received, reading.
    cbn [wireResponse firstn].
    pose proof (Z.mod_pos_bound x 256). pose proof (Z.mod_pos_bound y 256).
    split.
    + rewrite word_of_cons by (rewrite byte_low; lia).
      rewrite byte_high, byte_low. now apply big_endian_bytes.
    + unfold skipn.
      rewrite word_of_cons by (rewrite byte_low; lia).
      rewrite byte_high, byte_low. now apply big_endian_bytes.
Qed.

Lemma X5_words_are_big_endian_witness :
  sensorX (reading (-32768) 32767) = -32768
  /\ sensorY (reading (-32768) 32767) = 32767.
Proof.
  apply (proj2 X5_words_are_big_endian);
    unfold is_int16, INT_MIN, INT_MAX; lia.
Defined.

Lemma word_of_nth (l : list Z) :
  word_of l = int16 (Z.lor (Z.shiftl (nth 0 l (-1)) 8) (nth 1 l (-1))).
Proof. reflexivity. Qed.

Lemma sensor_words (e : env) :
  sensorX e
  = int16 (Z.lor (Z.shiftl (nth 0 (wireResponse e) (-1)) 8)
             (nth 1 (wireResponse e) (-1)))
  /\ sensorY e
     = int16 (Z.lor (Z.shiftl (nth 2 (wireResponse e) (-1)) 8)
                (nth 3 (wireResponse e) (-1))).
Proof.
  unfold sensorX, sensorY, received. rewrite !word_of_nth.
  rewrite !nth_skipn, !nth_firstn. split; reflexivity.
Qed.

Lemma nth_firstn4 (l : list Z) (i : nat) :
  (i < 4)%nat -> nth i l (-1) = nth i (firstn 4 l) (-1).
Proof.
  intros H. rewrite nth_firstn.
  destruct (Nat.ltb_spec i 4); [reflexivity | lia].
Qed.

Lemma buffer_drained (l : list Z) : Nat.iter 7 (skipn 2) (firstn 14 l) = [].
Proof.
  unfold Nat.iter. cbn [nat_rect]. rewrite !skipn_skipn. cbn [Nat.add].
  apply skipn_all2. apply firstn_le_length.
Qed.

(** X6. A sample uses only the first four bytes of the answer of the
    sensor, the X and Y acceleration: two answers that agree on them leave
    the same mode, levels and accumulator and the same LED level, whatever
    the bytes of Z, temperature and gyroscope.  All the bytes received, at
    most fourteen, are read: the receive buffer is empty after every
    sample. *)
Theorem X6_only_x_and_y_are_used :
  forall (e e' : env) (s : state),
    firstn 4 (wireResponse e) = firstn 4 (wireResponse e') ->
    fields (state_after Console.processSleepData e s)
    = fields (state_after Console.processSleepData e' s)
    /\ activity_levels (trace_of Console.processSleepData e s)
       = activity_levels (trace_of Console.processSleepData e' s)
    /\ wireBuf (state_after Console.processSleepData e s) = [].
Proof.
  intros e e' s H.
  assert (Hs : sample_step e = sample_step e').
  { unfold sample_step.
    destruct (sensor_words e) as [-> ->]. destruct (sensor_words e') as [-> ->].
    rewrite !(nth_firstn4 (wireResponse e)) by lia.
    rewrite !(nth_firstn4 (wireResponse e')) by lia.
    rewrite H. reflexivity. }
  unfold state_after, trace_of. rewrite !processSleepData_eq.
  cbn [fst snd]. rewrite !sample_trace_levels.
  unfold fields, sampled. cbn [mode prevSyncState prevSleepState AcStep
                                 AcCount AcTotal wireBuf].
  rewrite Hs. split; [reflexivity|]. split; [reflexivity|].
  apply buffer_drained.
Qed.

Lemma X6_only_x_and_y_are_used_witness :
  fields (state_after Console.processSleepData
            (mkEnv LOW LOW [1; 44; 0; 100; 9; 9; 9; 9] [] false None false)
            initial)
  = fields (state_after Console.processSleepData (reading 300 100) initial).
Proof.
  exact (proj1 (X6_only_x_and_y_are_used
                  (mkEnv LOW LOW [1; 44; 0; 100; 9; 9; 9; 9] [] false None
                     false)
                  (reading 300 100) initial eq_refl)).
Defined.

(** X7. When the sensor does not answer, every Wire.read() returns -1, the
    X and Y words are -1 and the step is 0: the sample is still counted,
    the total is kept and the activity LED is written with 0. *)
Theorem X7_silent_sensor_counts_a_zero_sample :
  forall (e : env) (s : state),
    wireResponse e = [] -> is_int32 (AcTotal s) ->
    sensorX e = -1 /\ sensorY e = -1
    /\ AcStep (state_after Console.processSleepData e s) = 0
    /\ AcCount (state_after Console.processSleepData e s)
       = int16 (AcCount s + 1)
    /\ AcTotal (state_after Console.processSleepData e s) = AcTotal s
    /\ activity_levels (trace_of Console.processSleepData e s) = [0].
Proof.
  intros e s H Ht.
  assert (Hx : sensorX e = -1) by (unfold sensorX, received; now rewrite H).
  assert (Hy : sensorY e = -1) by (unfold sensorY, received; now rewrite H).
  assert (Hs : sample_step e = 0) by (unfold sample_step; now rewrite Hx, Hy).
  unfold state_after, trace_of. rewrite processSleepData_eq.
  cbn [fst snd sampled AcStep AcCount AcTotal].
  rewrite sample_trace_levels, Hs, Z.add_0_r, int32_id by exact Ht.
  repeat split; assumption || reflexivity.
Qed.

Lemma X7_silent_sensor_counts_a_zero_sample_witness :
  AcCount (state_after Console.processSleepData (buttons LOW LOW)
             (sleep_entered initial))
  = int16 (0 + 1).
Proof.
  refine (proj1 (proj2 (proj2 (proj2
            (X7_silent_sensor_counts_a_zero_sample (buttons LOW LOW)
               (sleep_entered initial) eq_refl _))))).
  cbn. unfold is_int32. lia.
Defined.

(** X8. In a session of any length the count is the number of samples
    reduced to a signed 16-bit int and the total is the sum of the steps
    reduced to a signed 32-bit long: past 32767 samples the count goes on
    from -32768. *)
Theorem X8_count_and_total_wrap_around :
  forall (es : list env) (s : state),
    mode s = MODE_SLEEP -> AcCount s = 0 -> AcTotal s = 0 -> quiet es ->
    mode (fst (Console.run es s)) = MODE_SLEEP
    /\ AcCount (fst (Console.run es s)) = int16 (Z.of_nat (List.length es))
    /\ AcTotal (fst (Console.run es s)) = int32 (total (steps es)).
Proof.
  intros es s Hm Hc Ht Hq.
  destruct (run_session es s Hm Hq) as (Rm & Rc & Rt & _).
  - rewrite Hc. unfold is_int16, INT_MIN, INT_MAX. lia.
  - rewrite Ht. unfold is_int32. lia.
  - rewrite Rc, Rt, Hc, Ht, !Z.add_0_l. auto.
Qed.

Lemma X8_count_and_total_wrap_around_witness :
  AcCount (fst (Console.run [reading 200 100; reading 300 100]
                  (sleep_entered initial)))
  = int16 2.
Proof.
  refine (proj1 (proj2 (X8_count_and_total_wrap_around
                          [reading 200 100; reading 300 100]
                          (sleep_entered initial) eq_refl eq_refl eq_refl _))).
  repeat constructor.
Defined.

(** ** The SD-backed variant *)

Lemma copy_file_eq (content : list Z) (e : env) (s : state) :
  SDCard.copy_file content e s = (tt, s, copy_events content).
Proof.
  induction content as [|b rest IH]; [reflexivity|].
  cbn [SDCard.copy_file copy_events]. unfold bind, emit.
  destruct (0 <? b).
  - rewrite IH. reflexivity.
  - reflexivity.
Qed.

Lemma written_copy_events (content : list Z) :
  written (copy_events content) = positive_prefix content
  /\ console (copy_events content) = [].
Proof.
  induction content as [|b rest [IHw IHc]]; [split; reflexivity|].
  cbn [copy_events positive_prefix written console].
  destruct (0 <? b); cbn [written console]; [|split; reflexivity].
  rewrite IHw, IHc. split; reflexivity.
Qed.

Lemma positive_prefix_all (content : list Z) :
  Forall (fun b => 0 < b) content -> positive_prefix content = content.
Proof.
  induction 1 as [|b rest Hb _ IH]; [reflexivity|].
  cbn [positive_prefix]. apply Z.ltb_lt in Hb. now rewrite Hb, IH.
Qed.

Lemma written_app (t1 t2 : trace) :
  written (t1 ++ t2) = written t1 ++ written t2.
Proof.
  induction t1 as [|ev t1 IH]; [reflexivity|].
  destruct ev; cbn [written app]; try exact IH. now rewrite IH.
Qed.

Lemma SD_sendData_eq (e : env) (s : state) :
  SDCard.sendData e s
  = (tt, s,
     match sdOpenRead e with
     | Some content =>
         [Println "<log message='Sending SD card data'/>";
          SdOpen LOG_FILE false true;
          Println "<cmd name='data'>"]
         ++ copy_events content ++ [Println "</cmd>"; FileClose]
     | None =>
         [Println "<log message='Sending SD card data'/>";
          SdOpen LOG_FILE false false;
          Println "<log message='Error opening LOG.TXT...'/>"]
     end).
Proof.
  unfold SDCard.sendData, SDCard.SD_open_read, bind, Serial_println, emit.
  destruct (sdOpenRead e) as [content|]; [|reflexivity].
  rewrite copy_file_eq. reflexivity.
Qed.

(** X9. sendData of the SD variant never changes the state.  When LOG.TXT
    opens it prints the note, the line <cmd name='data'>, then the bytes of
    the file up to the first byte that is not positive, then </cmd>, and
    closes the file: a file of positive bytes is copied whole, a zero byte
    cuts the copy short.  When the file does not open it prints the note
    and the error line, no envelope and no byte. *)
Theorem X9_sendData_copies_up_to_first_zero :
  forall (e : env) (s : state),
    state_after SDCard.sendData e s = s
    /\ (forall content : list Z,
          sdOpenRead e = Some content ->
          trace_of SDCard.sendData e s
          = [Println "<log message='Sending SD card data'/>";
             SdOpen LOG_FILE false true;
             Println "<cmd name='data'>"]
            ++ copy_events content ++ [Println "</cmd>"; FileClose]
          /\ console (trace_of SDCard.sendData e s)
             = ["<log message='Sending SD card data'/>";
                "<cmd name='data'>"; "</cmd>"]
          /\ written (trace_of SDCard.sendData e s)
             = positive_prefix content
          /\ (Forall (fun b => 0 < b) content ->
              written (trace_of SDCard.sendData e s) = content))
    /\ (sdOpenRead e = None ->
        console (trace_of SDCard.sendData e s)
        = ["<log message='Sending SD card data'/>";
           "<log message='Error opening LOG.TXT...'/>"]
        /\ written (trace_of SDCard.sendData e s) = []).
Proof.
  intros e s. unfold state_after, trace_of. rewrite SD_sendData_eq.
  cbn [fst snd]. split; [reflexivity|]. split.
  - intros content ->.
    destruct (written_copy_events content) as [Hw Hc].
    assert (W : written
                  ([Println "<log message='Sending SD card data'/>";
                    SdOpen LOG_FILE false true;
                    Println "<cmd name='data'>"]
                   ++ copy_events content ++ [Println "</cmd>"; FileClose])
                = positive_prefix content).
    { rewrite !written_app, Hw. cbn [written app]. apply app_nil_r. }
    split; [reflexivity|]. split; [|split].
    + rewrite !console_app, Hc. reflexivity.
    + exact W.
    + intros Hall. rewrite W. now apply positive_prefix_all.
  - intros ->. split; reflexivity.
Qed.

Lemma X9_sendData_copies_up_to_first_zero_witness :
  written (trace_of SDCard.sendData
             (mkEnv LOW LOW [] [] true (Some [76; 79; 71; 0; 88]) true)
             initial)
  = [76; 79; 71].
Proof.
  exact (proj1 (proj2 (proj2
           (proj1 (proj2 (X9_sendData_copies_up_to_first_zero
                            (mkEnv LOW LOW [] [] true
                               (Some [76; 79; 71; 0; 88]) true)
                            initial))
              [76; 79; 71; 0; 88] eq_refl)))).
Defined.

(** ** The three variants have the same mode controller *)

Ltac eval_handler :=
  repeat (
    cbv beta iota zeta delta
      [mode prevSyncState prevSleepState AcStep AcCount AcTotal wireBuf
       serialBuf pinSync pinSleep wireResponse serialArrived sdOpenWrite
       sdOpenRead sdRemove bind get ret emit store digitalRead digitalWrite
       analogWrite delay Serial_println orb andb negb app fst snd
       Console.logData SDCard.logData Legacy.logData
       SDCard.SD_open_write Console.summariseSleepData];
    repeat match goal with
    | H : (?a =? ?b) = _ |- context [?a =? ?b] => rewrite H
    | |- context [?a =? ?a] => rewrite (Z.eqb_refl a)
    | |- context [PIN_BUTTON_SLEEP =? PIN_BUTTON_SYNC] =>
        change (PIN_BUTTON_SLEEP =? PIN_BUTTON_SYNC) with false
    end).

Lemma SD_processSyncButton_state (e : env) (s : state) :
  state_after SDCard.processSyncButton e s
  = state_after Console.processSyncButton e s.
Proof.
  destruct_state s. destruct e as [psy psl wr sa ow ord rm].
  destruct (m =? MODE_NONE) eqn:Em; destruct (m =? MODE_SYNC) eqn:Es;
    destruct (ps =? LOW) eqn:Ep; destruct (psy =? HIGH) eqn:El; destruct ow;
    unfold state_after, SDCard.processSyncButton, Console.processSyncButton;
    eval_handler; reflexivity.
Qed.

Lemma Legacy_processSyncButton_state (e : env) (s : state) :
  state_after Legacy.processSyncButton e s
  = state_after Console.processSyncButton e s.
Proof.
  destruct_state s. destruct e as [psy psl wr sa ow ord rm].
  destruct (m =? MODE_NONE) eqn:Em; destruct (m =? MODE_SYNC) eqn:Es;
    destruct (ps =? LOW) eqn:Ep; destruct (psy =? HIGH) eqn:El; destruct ow;
    unfold state_after, Legacy.processSyncButton, Console.processSyncButton;
    eval_handler; reflexivity.
Qed.

Lemma SD_processSleepButton_state (e : env) (s : state) :
  state_after SDCard.processSleepButton e s
  = assign Vmode (mode (state_after Console.processSleepButton e s)) s.
Proof.
  destruct_state s. destruct e as [psy psl wr sa ow ord rm].
  destruct (m =? MODE_NONE) eqn:Em; destruct (m =? MODE_SLEEP) eqn:Es;
    destruct (pl =? LOW) eqn:Ep; destruct (psl =? HIGH) eqn:El; destruct ow;
    unfold state_after, SDCard.processSleepButton, Console.processSleepButton;
    eval_handler; reflexivity.
Qed.

Lemma Legacy_processSleepButton_state (e : env) (s : state) :
  state_after Legacy.processSleepButton e s
  = assign Vmode (mode (state_after Console.processSleepButton e s)) s.
Proof.
  destruct_state s. destruct e as [psy psl wr sa ow ord rm].
  destruct (m =? MODE_NONE) eqn:Em; destruct (m =? MODE_SLEEP) eqn:Es;
    destruct (pl =? LOW) eqn:Ep; destruct (psl =? HIGH) eqn:El; destruct ow;
    unfold state_after, Legacy.processSleepButton, Console.processSleepButton;
    eval_handler; reflexivity.
Qed.

Lemma SD_processSyncButton_not_logged (e : env) (s : state) (msg : string) :
  sdOpenWrite e = false ->
  ~ In (FilePrintln msg) (trace_of SDCard.processSyncButton e s).
Proof.
  intros Ho. destruct_state s. destruct e as [psy psl wr sa ow ord rm].
  cbn [sdOpenWrite] in Ho. subst ow.
  destruct (m =? MODE_NONE) eqn:Em; destruct (m =? MODE_SYNC) eqn:Es;
    destruct (ps =? LOW) eqn:Ep; destruct (psy =? HIGH) eqn:El;
    unfold trace_of, SDCard.processSyncButton;
    eval_handler; cbn [In]; intuition discriminate.
Qed.

Lemma SD_processSleepButton_not_logged (e : env) (s : state) (msg : string) :
  sdOpenWrite e = false ->
  ~ In (FilePrintln msg) (trace_of SDCard.processSleepButton e s).
Proof.
  intros Ho. destruct_state s. destruct e as [psy psl wr sa ow ord rm].
  cbn [sdOpenWrite] in Ho. subst ow.
  destruct (m =? MODE_NONE) eqn:Em; destruct (m =? MODE_SLEEP) eqn:Es;
    destruct (pl =? LOW) eqn:Ep; destruct (psl =? HIGH) eqn:El;
    unfold trace_of, SDCard.processSleepButton;
    eval_handler; cbn [In]; intuition discriminate.
Qed.

(** X10. In the SD variant the answers of the SD card never change what the
    buttons do: the state after each handler depends on the button level
    only, the sync handler leaves the very state the console variant's
    handler leaves, and the sleep handler sets the same mode and touches
    nothing else.  When LOG.TXT cannot be opened the transition still
    happens and neither handler writes its message to a file. *)
Theorem X10_sd_failure_does_not_block_the_buttons :
  forall (e e' : env) (s : state),
    pinSync e = pinSync e' -> pinSleep e = pinSleep e' ->
    state_after SDCard.processSyncButton e s
    = state_after SDCard.processSyncButton e' s
    /\ state_after SDCard.processSleepButton e s
       = state_after SDCard.processSleepButton e' s
    /\ state_after SDCard.processSyncButton e s
       = state_after Console.processSyncButton e s
    /\ state_after SDCard.processSleepButton e s
       = assign Vmode (mode (state_after Console.processSleepButton e s)) s
    /\ (sdOpenWrite e = false ->
        forall msg,
          ~ In (FilePrintln msg) (trace_of SDCard.processSyncButton e s)
          /\ ~ In (FilePrintln msg)
                (trace_of SDCard.processSleepButton e s)).
Proof.
  intros e e' s Hsy Hsl.
  rewrite !SD_processSyncButton_state, !SD_processSleepButton_state.
  unfold state_after.
  rewrite (processSyncButton_env e e' s Hsy).
  rewrite (processSleepButton_env e e' s Hsl).
  repeat (split; [reflexivity|]).
  intros Ho msg. split.
  - now apply SD_processSyncButton_not_logged.
  - now apply SD_processSleepButton_not_logged.
Qed.

Lemma X10_sd_failure_does_not_block_the_buttons_witness :
  state_after SDCard.processSyncButton
    (mkEnv HIGH LOW [] [] false None false) initial
  = state_after SDCard.processSyncButton
      (mkEnv HIGH LOW [] [] true None true) initial.
Proof.
  exact (proj1 (X10_sd_failure_does_not_block_the_buttons
                  (mkEnv HIGH LOW [] [] false None false)
                  (mkEnv HIGH LOW [] [] true None true)
                  initial eq_refl eq_refl)).
Defined.

Lemma state_after_get {A B : Type} (f : state -> A) (k : A -> prog B)
      (e : env) (s : state) :
  state_after (bind (get f) k) e s = state_after (k (f s)) e s.
Proof. rewrite state_after_bind. reflexivity. Qed.

Lemma serial_part_state (e : env) (s : state) :
  state_after serial_part e s = with_serialBuf (tl (serialBuf s)) s.
Proof.
  destruct (serial_part_cases e s) as [[Hb E]|(c & rest & Hb & E & _)].
  - unfold state_after. rewrite E. cbn [fst snd].
    destruct_state s. subst sb. reflexivity.
  - rewrite E, Hb. reflexivity.
Qed.

Lemma SD_serial_part_state (e : env) (s : state) :
  state_after SD_serial_part e s = with_serialBuf (tl (serialBuf s)) s.
Proof.
  destruct_state s. destruct sb as [|c rest]; [reflexivity|].
  unfold SD_serial_part, Serial_available, Serial_read.
  rewrite state_after_get. cbn [serialBuf List.length].
  rewrite Nat2Z.inj_succ.
  replace (0 <? Z.succ (Z.of_nat (List.length rest))) with true
    by (symmetry; apply Z.ltb_lt; lia).
  rewrite state_after_bind. unfold state_after at 2. cbn [serialBuf fst snd].
  destruct (c =? CHAR_D).
  - rewrite state_after_bind. unfold state_after.
    rewrite SD_sendData_eq. reflexivity.
  - destruct (c =? CHAR_R); [|reflexivity].
    unfold SDCard.resetDevice, SDCard.SD_remove.
    destruct e as [psy psl wr sa ow ord []]; reflexivity.
Qed.

Lemma processSleepData_state (e : env) (s : state) :
  state_after Console.processSleepData e s = sampled e s.
Proof. unfold state_after. now rewrite processSleepData_eq. Qed.

Lemma processSyncButton_only_mode (e : env) (s : state) :
  exists m' : Z, state_after Console.processSyncButton e s = assign Vmode m' s.
Proof.
  unfold state_after.
  destruct (processSyncButton_cases e s) as [[E H]|[[E H]|[[E H]|[E H]]]];
    rewrite E; cbn [fst snd].
  - exists (mode s). now destruct s.
  - exists (mode s). now destruct s.
  - now exists MODE_SYNC.
  - now exists MODE_NONE.
Qed.

(** X11. The three variants of the sketch run the same mode controller:
    from the same state and with the same button levels one call of loop()
    leaves the same mode in the first variant, in the SD variant and in the
    console variant.  The first variant changes nothing but the mode; the SD
    variant changes nothing but the mode and, in the sync mode, the serial
    receive buffer, from which it takes the first byte as the console
    variant does. *)
Theorem X11_variants_agree_on_the_mode :
  forall (e : env) (s : state),
    mode (state_after SDCard.loop e s) = mode (state_after Console.loop e s)
    /\ mode (state_after Legacy.loop e s)
       = mode (state_after Console.loop e s)
    /\ state_after Legacy.loop e s
       = assign Vmode (mode (state_after Console.loop e s)) s
    /\ state_after SDCard.loop e s
       = with_serialBuf (serialBuf (state_after Console.loop e s))
           (assign Vmode (mode (state_after Console.loop e s)) s).
Proof.
  intros e s.
  unfold SDCard.loop, Legacy.loop, Console.loop. rewrite !state_after_get.
  destruct (mode s =? MODE_NONE) eqn:E0.
  - unfold SDCard.idle, Legacy.idle, Console.idle.
    rewrite !state_after_bind.
    rewrite SD_processSyncButton_state, Legacy_processSyncButton_state.
    rewrite SD_processSleepButton_state, Legacy_processSleepButton_state.
    pose proof (processSleepButton_serialBuf e
                  (state_after Console.processSyncButton e s)) as Hb.
    rewrite (proj1 (processSyncButton_serialBuf e s)) in Hb. rewrite Hb.
    destruct (processSyncButton_only_mode e s) as [m' ->].
    destruct s. repeat split; reflexivity.
  - destruct (mode s =? MODE_SYNC) eqn:E1.
    + change SDCard.sync with (SDCard.processSyncButton ;; SD_serial_part).
      rewrite sync_unfold. unfold Legacy.sync.
      rewrite !state_after_bind.
      rewrite SD_processSyncButton_state, Legacy_processSyncButton_state.
      rewrite SD_serial_part_state, serial_part_state.
      destruct (processSyncButton_only_mode e s) as [m' ->].
      destruct s. repeat split; reflexivity.
    + destruct (mode s =? MODE_SLEEP) eqn:E2.
      * unfold SDCard.sleep, Legacy.sleep, Console.sleep,
          SDCard.processSleepData.
        rewrite !state_after_bind.
        rewrite SD_processSleepButton_state, Legacy_processSleepButton_state.
        rewrite !processSleepData_state.
        cbn [sampled mode serialBuf].
        rewrite processSleepButton_serialBuf.
        destruct s. repeat split; reflexivity.
      * destruct s. repeat split; reflexivity.
Qed.

(** ** A button that is held down *)

Lemma exec_fst {A : Type} (c : prog A) (e : env) (s : state) :
  fst (exec c e s) = state_after c e s.
Proof.
  unfold exec, state_after. now destruct (c e s) as [[a s'] t].
Qed.

Lemma iteration_held_idle (e : env) (s : state) :
  mode s = MODE_NONE -> prevSyncState s = LOW -> pinSync e = HIGH ->
  mode (fst (Console.iteration e s)) = MODE_SYNC.
Proof.
  intros Hm Hp Hl. rewrite iteration_idle, exec_fst by exact Hm.
  unfold Console.idle. rewrite state_after_bind.
  assert (Hm' : mode (arrived e s) = MODE_NONE) by exact Hm.
  assert (Hp' : prevSyncState (arrived e s) = LOW) by exact Hp.
  unfold state_after at 2.
  destruct (processSyncButton_cases e (arrived e s))
    as [[E H]|[[E H]|[[E H]|[E H]]]];
    try (exfalso; clear E;
         unfold MODE_NONE, MODE_SYNC, LOW, HIGH in *; lia).
  rewrite E. cbn [fst snd]. unfold state_after.
  rewrite processSleepButton_in_sync by reflexivity. reflexivity.
Qed.

Lemma iteration_held_sync (e : env) (s : state) :
  mode s = MODE_SYNC -> prevSyncState s = LOW -> pinSync e = HIGH ->
  mode (fst (Console.iteration e s)) = MODE_NONE.
Proof.
  intros Hm Hp Hl. rewrite iteration_sync, exec_fst by exact Hm.
  rewrite sync_unfold, state_after_bind, serial_part_state.
  assert (Hm' : mode (arrived e s) = MODE_SYNC) by exact Hm.
  assert (Hp' : prevSyncState (arrived e s) = LOW) by exact Hp.
  unfold state_after.
  destruct (processSyncButton_cases e (arrived e s))
    as [[E H]|[[E H]|[[E H]|[E H]]]];
    try (exfalso; clear E;
         unfold MODE_NONE, MODE_SYNC, LOW, HIGH in *; lia).
  rewrite E. reflexivity.
Qed.

Lemma run_held (es : list env) :
  forall s,
    held es -> prevSyncState s = LOW ->
    (mode s = MODE_NONE ->
     mode (fst (Console.run es s))
     = if Nat.even (List.length es) then MODE_NONE else MODE_SYNC)
    /\ (mode s = MODE_SYNC ->
        mode (fst (Console.run es s))
        = if Nat.even (List.length es) then MODE_SYNC else MODE_NONE).
Proof.
  induction es as [|e es IH]; intros s Hh Hp.
  - split; intros Hm; exact Hm.
  - inversion Hh as [|e' es' He Hes]; subst.
    assert (Hp1 : prevSyncState (fst (Console.iteration e s)) = LOW).
    { pose proof (iteration_keeps_levels e s) as Hk.
      unfold prev_levels in Hk. injection Hk as Hk _. now rewrite Hk. }
    destruct (IH (fst (Console.iteration e s)) Hes Hp1) as [IH0 IH1].
    cbn [Console.run List.length].
    rewrite Nat.even_succ, <- Nat.negb_even.
    destruct (Console.iteration e s) as [s1 t1] eqn:Ei. cbn [fst] in *.
    destruct (Console.run es s1) as [s2 t2]. cbn [fst] in *.
    split; intros Hm.
    + assert (H1 : mode s1 = MODE_SYNC).
      { pose proof (iteration_held_idle e s Hm Hp He) as H.
        now rewrite Ei in H. }
      rewrite (IH1 H1). now destruct (Nat.even (List.length es)).
    + assert (H0 : mode s1 = MODE_NONE).
      { pose proof (iteration_held_sync e s Hm Hp He) as H.
        now rewrite Ei in H. }
      rewrite (IH0 H0). now destruct (Nat.even (List.length es)).
Qed.

(** X12. The handlers act on the level of a button, not on its edge: while
    the sync button reads HIGH at every iteration, the mode changes at every
    iteration.  From an idle state the mode is MODE_SYNC after an odd number
    of iterations and MODE_NONE again after an even number, whatever the
    sleep button, the serial port and the sensor do. *)
Theorem X12_held_sync_button_toggles_every_iteration :
  forall (es : list env) (s : state),
    held es -> prevSyncState s = LOW -> mode s = MODE_NONE ->
    mode (fst (Console.run es s))
    = if Nat.even (List.length es) then MODE_NONE else MODE_SYNC.
Proof.
  intros es s Hh Hp Hm. exact (proj1 (run_held es s Hh Hp) Hm).
Qed.

Lemma X12_held_sync_button_toggles_every_iteration_witness :
  mode (fst (Console.run
               [buttons HIGH LOW; buttons HIGH HIGH; buttons HIGH LOW]
               initial))
  = MODE_SYNC.
Proof.
  refine (X12_held_sync_button_toggles_every_iteration
            [buttons HIGH LOW; buttons HIGH HIGH; buttons HIGH LOW]
            initial _ eq_refl eq_refl).
  repeat constructor.
Defined.

(** ** How the steps of an iteration compose *)

(** X13. sync() handles a waiting command after its button, also when the
    button has just switched the sync mode off: the line that the mode is
    disabled is followed, in the same call, by the answer to the command D,
    and the mode is MODE_NONE when the answer is sent. *)
Theorem X13_command_answered_after_sync_mode_ends :
  forall (e : env) (s : state) (rest : list Z),
    mode s = MODE_SYNC -> prevSyncState s = LOW -> pinSync e = HIGH ->
    serialBuf s = CHAR_D :: rest ->
    Console.sync e s
    = (tt, with_serialBuf rest (assign Vmode MODE_NONE s),
       sync_off_trace ++ SerialRead CHAR_D :: data_response s)
    /\ console (trace_of Console.sync e s)
       = ["<log message='LOG: Sync button was pressed, sync mode disabled'/>";
          "<log message='Received: Read data'>";
          "<log message='Sending sleep data'/>";
          "<cmd name='data'>";
          summary s;
          "</cmd>"].
Proof.
  intros e s rest Hm Hp Hl Hb.
  assert (E : Console.sync e s
              = (tt, with_serialBuf rest (assign Vmode MODE_NONE s),
                 sync_off_trace ++ SerialRead CHAR_D :: data_response s)).
  { rewrite sync_unfold. unfold bind.
    destruct (processSyncButton_cases e s) as [[E H]|[[E H]|[[E H]|[E H]]]];
      try (exfalso; clear E;
           unfold MODE_NONE, MODE_SYNC, LOW, HIGH in *; lia).
    rewrite E, (serial_part_D e _ rest) by exact Hb. reflexivity. }
  split; [exact E|]. unfold trace_of. rewrite E. reflexivity.
Qed.

Lemma X13_command_answered_after_sync_mode_ends_witness :
  mode (state_after Console.sync (buttons HIGH LOW)
          (mkState MODE_SYNC LOW LOW 1 3 4 [] [CHAR_D]))
  = MODE_NONE.
Proof.
  unfold state_after.
  rewrite (proj1 (X13_command_answered_after_sync_mode_ends
                    (buttons HIGH LOW)
                    (mkState MODE_SYNC LOW LOW 1 3 4 [] [CHAR_D]) []
                    eq_refl eq_refl eq_refl eq_refl)).
  reflexivity.
Defined.

(** X14. An idle iteration with no button at HIGH only reads the two
    buttons, first sync and then sleep: the state is left as it was, nothing
    is printed, no LED is written and the loop does not wait. *)
Theorem X14_idle_without_buttons_does_nothing :
  forall (e : env) (s : state),
    mode s = MODE_NONE -> pinSync e <> HIGH -> pinSleep e <> HIGH ->
    Console.loop e s
    = (tt, s,
       [DigitalRead PIN_BUTTON_SYNC (pinSync e);
        DigitalRead PIN_BUTTON_SLEEP (pinSleep e)]).
Proof.
  intros e s Hm Hsy Hsl. rewrite loop_idle by exact Hm.
  unfold Console.idle, bind.
  destruct (processSyncButton_cases e s) as [[E H]|[[E H]|[[E H]|[E H]]]];
    try (exfalso; clear E;
         unfold MODE_NONE, MODE_SYNC, LOW, HIGH in *; lia).
  rewrite E.
  destruct (processSleepButton_cases e s)
    as [[E' H']|[[E' H']|[[E' H']|[E' H']]]];
    try (exfalso; clear E E';
         unfold MODE_NONE, MODE_SLEEP, LOW, HIGH in *; lia).
  rewrite E'. reflexivity.
Qed.

Lemma X14_idle_without_buttons_does_nothing_witness :
  Console.loop (buttons LOW LOW) initial
  = (tt, initial,
     [DigitalRead PIN_BUTTON_SYNC LOW; DigitalRead PIN_BUTTON_SLEEP LOW]).
Proof.
  apply (X14_idle_without_buttons_does_nothing (buttons LOW LOW) initial);
    [reflexivity | cbn; discriminate | cbn; discriminate].
Defined.

(** ** The report after a session *)

Lemma exec_snd {A : Type} (c : prog A) (e : env) (s : state) :
  snd (exec c e s) = trace_of c e s.
Proof.
  unfold exec, trace_of. now destruct (c e s) as [[a s'] t].
Qed.

Lemma iteration_fst (e : env) (s : state) :
  fst (Console.iteration e s) = state_after Console.loop e (arrived e s).
Proof.
  unfold Console.iteration. rewrite exec_fst, state_after_bind. reflexivity.
Qed.

Lemma run_one (e : env) (s : state) :
  Console.run [e] s = Console.iteration e s.
Proof.
  cbn [Console.run]. destruct (Console.iteration e s) as [s1 t1].
  now rewrite app_nil_r.
Qed.

(** A call of loop() that neither starts nor ends in the sleep mode keeps
    the accumulator. *)
Lemma loop_awake_keeps (e : env) (s : state) :
  mode s <> MODE_SLEEP ->
  mode (state_after Console.loop e s) <> MODE_SLEEP ->
  accumulator (state_after Console.loop e s) = accumulator s.
Proof.
  intros Hm.
  destruct (Z.eq_dec (mode s) MODE_NONE) as [H0|H0].
  - assert (E : state_after Console.loop e s = state_after Console.idle e s)
      by (unfold state_after; now rewrite loop_idle).
    rewrite E. clear E. unfold Console.idle. rewrite state_after_bind.
    destruct (processSyncButton_serialBuf e s) as (_ & _ & Ha).
    rewrite <- Ha.
    set (s1 := state_after Console.processSyncButton e s).
    unfold state_after.
    destruct (processSleepButton_cases e s1)
      as [[E' H']|[[E' H']|[[E' H']|[E' H']]]];
      rewrite E'; cbn [fst snd]; intros Hm'; try reflexivity.
    exfalso. apply Hm'. reflexivity.
  - destruct (Z.eq_dec (mode s) MODE_SYNC) as [H1|H1].
    + assert (E : state_after Console.loop e s = state_after Console.sync e s)
        by (unfold state_after; now rewrite loop_sync).
      rewrite E. clear E. intros _.
      rewrite sync_unfold, state_after_bind, serial_part_state.
      destruct (processSyncButton_serialBuf e s) as (_ & _ & Ha).
      rewrite <- Ha. reflexivity.
    + intros _. unfold state_after. now rewrite loop_other.
Qed.

Lemma awake_mode (es : list env) (s : state) :
  awake es s = true -> mode s <> MODE_SLEEP.
Proof.
  destruct es as [|e es]; cbn [awake]; intros H.
  - apply Z.eqb_neq. now destruct (mode s =? MODE_SLEEP).
  - apply andb_prop in H. destruct H as [H _].
    apply Z.eqb_neq. now destruct (mode s =? MODE_SLEEP).
Qed.

(** Iterations outside the sleep mode keep the accumulator. *)
Lemma run_awake_keeps (es : list env) :
  forall s, awake es s = true ->
            accumulator (fst (Console.run es s)) = accumulator s.
Proof.
  induction es as [|e es IH]; intros s H; [reflexivity|].
  pose proof (awake_mode _ _ H) as Hm.
  cbn [awake] in H. apply andb_prop in H. destruct H as [_ H].
  pose proof (awake_mode _ _ H) as Hm1.
  specialize (IH _ H).
  assert (Ha : accumulator (fst (Console.iteration e s)) = accumulator s).
  { rewrite iteration_fst in Hm1 |- *.
    exact (loop_awake_keeps e (arrived e s) Hm Hm1). }
  cbn [Console.run].
  destruct (Console.iteration e s) as [s1 t1]. cbn [fst] in *.
  destruct (Console.run es s1) as [s2 t2]. cbn [fst] in *.
  now rewrite IH.
Qed.

(** The samples of a session print nothing. *)
Lemma run_session_console (es : list env) :
  forall s, mode s = MODE_SLEEP -> quiet es ->
            console (snd (Console.run es s)) = [].
Proof.
  induction es as [|e es IH]; intros s Hm Hq; [reflexivity|].
  inversion Hq as [|e' es' He Hes]; subst.
  cbn [Console.run]. rewrite (iteration_sample e s Hm He).
  specialize (IH (sampled e (arrived e s)) Hm Hes).
  destruct (Console.run es (sampled e (arrived e s))) as [s2 t2].
  cbn [snd] in IH |- *.
  change (DigitalRead PIN_BUTTON_SLEEP LOW :: sample_trace e (arrived e s))
    with ([DigitalRead PIN_BUTTON_SLEEP LOW] ++ sample_trace e (arrived e s)).
  now rewrite !console_app, sample_trace_console, IH.
Qed.

(** The answer to the command D in an iteration of the sync mode. *)
Lemma iteration_data_command (e : env) (s : state) (rest : list Z) :
  mode s = MODE_SYNC -> serialBuf s ++ serialArrived e = CHAR_D :: rest ->
  console (snd (Console.iteration e s))
  = console (trace_of Console.processSyncButton e (arrived e s))
    ++ ["<log message='Received: Read data'>";
        "<log message='Sending sleep data'/>";
        "<cmd name='data'>";
        summary s;
        "</cmd>"].
Proof.
  intros Hm Hb. rewrite iteration_sync, exec_snd by exact Hm.
  destruct accumulator_kept_by_handlers as (_ & _ & _ & H).
  exact (proj2 (H e (arrived e s) rest Hb)).
Qed.

(** The end of a session of fewer than 32767 samples: the summary in the
    log, and the accumulator the iteration leaves. *)
Lemma session_end (es : list env) (e_end : env) (s0 : state) :
  mode s0 = MODE_SLEEP -> AcCount s0 = 0 -> AcTotal s0 = 0 ->
  prevSleepState s0 = LOW ->
  quiet es -> Z.of_nat (List.length es) < INT_MAX -> pinSleep e_end = HIGH ->
  mode (fst (Console.run (es ++ [e_end]) s0)) = MODE_NONE
  /\ console (snd (Console.run (es ++ [e_end]) s0))
     = ["<log message='LOG: Sleep button was pressed, sleep mode disabled'/>";
        ("<log message='"
           ++ (summary_line (Z.of_nat (List.length es)) (total (steps es))
                 ++ "'/>"))%string]
  /\ accumulator (fst (Console.run (es ++ [e_end]) s0))
     = (Z.of_nat (List.length es) + 1,
        total (steps es) + step_of (sensorX e_end) (sensorY e_end)).
Proof.
  intros Hm Hc Ht Hp Hq Hlen He. unfold INT_MAX in Hlen.
  destruct (run_short_session es s0 Hm Hc Ht Hq) as (Rm & Rc & Rt & _);
    [unfold INT_MAX; lia|].
  assert (Rp : prevSleepState (fst (Console.run es s0)) = LOW).
  { pose proof (run_keeps_levels es s0) as Hk. unfold prev_levels in Hk.
    injection Hk as _ Hk. now rewrite Hk. }
  pose proof (run_session_console es s0 Hm Hq) as Rq.
  pose proof (steps_bounds es) as Hb.
  pose proof (step_of_range (sensorX e_end) (sensorY e_end)
                (int16_range _) (int16_range _)) as Hs.
  rewrite run_app, run_one. cbn [fst snd].
  rewrite (iteration_ending e_end _ Rm Rp He). cbn [fst snd].
  split; [reflexivity|]. split.
  - rewrite !console_app, Rq, sample_trace_console.
    cbn [app sleep_off_trace console].
    unfold summary. cbn [arrived with_serialBuf AcCount AcTotal].
    rewrite Rc, Rt. reflexivity.
  - unfold accumulator.
    cbn [sampled AcCount AcTotal assign arrived with_serialBuf].
    rewrite Rc, Rt, sample_step_eq.
    rewrite int16_id by (unfold is_int16, INT_MIN, INT_MAX; lia).
    rewrite int32_id by lia. reflexivity.
Qed.

(** C9. The specification states that the command D, issued in the sync
    mode after a completed sleep session, reports the counts of that
    session.  The handlers keep their part: the sleep button handler does
    not clear AcCount and AcTotal when it leaves the sleep mode, neither
    processSyncButton nor sendData modifies them, and no iteration outside
    the sleep mode does.  But sleep() calls processSleepData after the
    handler has ended the session: a session of N samples, N below 32767,
    whose summary in the log is duration=N with the total T of its steps,
    leaves the count N + 1 and the total T plus the step of one more
    sample, and that is what the command D reports, after any number of
    iterations outside the sleep mode: neither zeros nor the counts of the
    session. *)
Theorem C9_data_reports_one_sample_more :
  (forall (e : env) (s : state),
      mode s = MODE_SLEEP -> prevSleepState s = LOW -> pinSleep e = HIGH ->
      accumulator (state_after Console.processSleepButton e s) = accumulator s)
  /\ keeps accumulator Console.processSyncButton
  /\ keeps accumulator Console.sendData
  /\ (forall (es : list env) (e_end : env) (mid : list env) (e_cmd : env)
             (s0 : state) (rest : list Z),
        mode s0 = MODE_SLEEP -> AcCount s0 = 0 -> AcTotal s0 = 0 ->
        prevSleepState s0 = LOW ->
        quiet es -> Z.of_nat (List.length es) < INT_MAX ->
        pinSleep e_end = HIGH ->
        awake mid (fst (Console.run (es ++ [e_end]) s0)) = true ->
        mode (fst (Console.run mid (fst (Console.run (es ++ [e_end]) s0))))
        = MODE_SYNC ->
        serialBuf (fst (Console.run mid (fst (Console.run (es ++ [e_end]) s0))))
        ++ serialArrived e_cmd
        = CHAR_D :: rest ->
        let N := Z.of_nat (List.length es) in
        let T := total (steps es) in
        let extra := step_of (sensorX e_end) (sensorY e_end) in
        let ended := Console.run (es ++ [e_end]) s0 in
        let s2 := fst (Console.run mid (fst ended)) in
        console (snd ended)
        = ["<log message='LOG: Sleep button was pressed, sleep mode disabled'/>";
           ("<log message='" ++ (summary_line N T ++ "'/>"))%string]
        /\ accumulator (fst ended) = (N + 1, T + extra)
        /\ accumulator s2 = (N + 1, T + extra)
        /\ console (snd (Console.iteration e_cmd s2))
           = console (trace_of Console.processSyncButton e_cmd
                        (arrived e_cmd s2))
             ++ ["<log message='Received: Read data'>";
                 "<log message='Sending sleep data'/>";
                 "<cmd name='data'>";
                 summary_line (N + 1) (T + extra);
                 "</cmd>"]
        /\ accumulator s2 <> (N, T)
        /\ accumulator s2 <> (0, 0)).
Proof.
  destruct accumulator_kept_by_handlers as (F1 & F2 & F3 & _).
  split; [exact F1|]. split; [exact F2|]. split; [exact F3|].
  intros es e_end mid e_cmd s0 rest Hm Hc Ht Hp Hq Hlen He Haw Hsync Hb
         N T extra ended s2.
  destruct (session_end es e_end s0 Hm Hc Ht Hp Hq Hlen He)
    as (_ & Hlog & Hacc).
  fold N T extra ended in Hlog, Hacc.
  assert (Hacc2 : accumulator s2 = (N + 1, T + extra)).
  { unfold s2. rewrite (run_awake_keeps mid (fst ended) Haw). exact Hacc. }
  split; [exact Hlog|]. split; [exact Hacc|]. split; [exact Hacc2|].
  split; [|split].
  - rewrite (iteration_data_command e_cmd s2 rest Hsync Hb).
    unfold accumulator in Hacc2. injection Hacc2 as Hc2 Ht2.
    unfold summary. rewrite Hc2, Ht2. reflexivity.
  - rewrite Hacc2. intros H. injection H as H _. lia.
  - rewrite Hacc2. intros H. injection H as H _. unfold N in H. lia.
Qed.

Lemma C9_data_reports_one_sample_more_witness :
  console
    (snd (Console.run
            ([reading 200 100; reading 300 100; reading 100 100] ++ [ending])
            (sleep_entered initial)))
  = ["<log message='LOG: Sleep button was pressed, sleep mode disabled'/>";
     "<log message='SLEEP: duration=3, activity=4'/>"]
  /\ console
       (snd (Console.iteration (command CHAR_D)
               (fst (Console.run [buttons HIGH LOW]
                       (fst (Console.run
                               ([reading 200 100; reading 300 100;
                                 reading 100 100] ++ [ending])
                               (sleep_entered initial)))))))
     = ["<log message='Received: Read data'>";
        "<log message='Sending sleep data'/>";
        "<cmd name='data'>";
        "SLEEP: duration=4, activity=5";
        "</cmd>"].
Proof.
  assert (Hq : quiet [reading 200 100; reading 300 100; reading 100 100])
    by repeat constructor.
  assert (Hlen : Z.of_nat (List.length
                             [reading 200 100; reading 300 100;
                              reading 100 100]) < INT_MAX)
    by (cbn; unfold INT_MAX; lia).
  destruct (proj2 (proj2 (proj2 C9_data_reports_one_sample_more))
              [reading 200 100; reading 300 100; reading 100 100]
              ending [buttons HIGH LOW] (command CHAR_D)
              (sleep_entered initial) []
              eq_refl eq_refl eq_refl eq_refl Hq Hlen eq_refl
              ltac:(vm_compute; reflexivity)
              ltac:(vm_compute; reflexivity)
              ltac:(vm_compute; reflexivity))
    as (Hlog & _ & _ & Hcmd & _).
  split; [exact Hlog | exact Hcmd].
Defined.
